(** * The Ensy state-synchronisation client

    A shallow embedding of [custom_components/ensy_unofficial/client.py]
    (and of the observer that [binary_sensor.py] registers), with the
    properties of its topic decoder, command encoder and readiness latches.

    Conventions of the embedding.
    - A Python [str] is a Rocq [string] holding the UTF-8 encoding of the
      text.  Strict UTF-8 is one-to-one between texts and valid byte
      strings, so [==], [startswith] and the slice taken after a successful
      [startswith] agree with Python's on code points.
    - A Python [int] is a [Z].
    - [self], the transport handle and the host's event loop are threaded
      through the operations by a state-and-exception monad [M].
    - Calls on the transport ([self._mqtt_client]) and calls of observers are
      recorded, in order, in logs.  Logging through [_LOGGER] has no effect
      on the client and is left out, and so is the probe
      [test_connectivity], which waits on a clock. *)

From Stdlib Require Import ZArith NArith List String Ascii Bool Lia DecimalString.
Import ListNotations.
Open Scope string_scope.
Open Scope Z_scope.

(** ** Text *)

Module Text.

(** [s.startswith(p)] *)
Fixpoint startswith (s p : string) {struct p} : bool :=
  match p with
  | EmptyString => true
  | String a p' =>
      match s with
      | EmptyString => false
      | String b s' => Ascii.eqb a b && startswith s' p'
      end
  end.

(** [s[n:]], for [n] counted in bytes; the client only slices at
    [len(prefix)] after [s.startswith(prefix)], where bytes and code
    points give the same rest. *)
Fixpoint slice_from (n : nat) (s : string) : string :=
  match n, s with
  | O, _ => s
  | S n', String _ s' => slice_from n' s'
  | S _, EmptyString => EmptyString
  end.

(** [s.replace(c, "")] for a one-character ASCII [c]. *)
Fixpoint remove_char (c : ascii) (s : string) : string :=
  match s with
  | EmptyString => EmptyString
  | String a s' =>
      if Ascii.eqb a c then remove_char c s' else String a (remove_char c s')
  end.

Definition is_ascii_char (a : ascii) : bool := (N_of_ascii a <? 128)%N.

Fixpoint is_ascii (s : string) : bool :=
  match s with
  | EmptyString => true
  | String a s' => is_ascii_char a && is_ascii s'
  end.

Definition ascii_lower_char (a : ascii) : ascii :=
  let n := N_of_ascii a in
  if ((65 <=? n) && (n <=? 90))%N then ascii_of_N (n + 32) else a.

Fixpoint ascii_lower (s : string) : string :=
  match s with
  | EmptyString => EmptyString
  | String a s' => String (ascii_lower_char a) (ascii_lower s')
  end.

(** [x in xs] for a tuple of strings. *)
Definition mem (x : string) (xs : list string) : bool :=
  existsb (String.eqb x) xs.

(** [str(n)] for an [int]: decimal digits, a leading [-] when negative.
    (The interpreter's limit on the digits of [str] is far above every
    value the client converts.) *)
Definition str (n : Z) : string := NilZero.string_of_int (Z.to_int n).

End Text.

(** ** UTF-8 *)

Module Utf8.

Local Open Scope N_scope.

Definition between (lo hi : N) (a : ascii) : bool :=
  (lo <=? N_of_ascii a) && (N_of_ascii a <=? hi).

(** The six payload bits of a continuation byte. *)
Definition low6 (a : ascii) : N := N.land (N_of_ascii a) 0x3F.

Definition two (b0 b1 : ascii) : option N :=
  if between 0xC2 0xDF b0 && between 0x80 0xBF b1
  then Some (N.shiftl (N.land (N_of_ascii b0) 0x1F) 6 + low6 b1)
  else None.

Definition three (b0 b1 b2 : ascii) : option N :=
  if (between 0xE0 0xE0 b0 && between 0xA0 0xBF b1
      || between 0xE1 0xEC b0 && between 0x80 0xBF b1
      || between 0xED 0xED b0 && between 0x80 0x9F b1
      || between 0xEE 0xEF b0 && between 0x80 0xBF b1)
     && between 0x80 0xBF b2
  then Some (N.shiftl (N.land (N_of_ascii b0) 0x0F) 12
             + N.shiftl (low6 b1) 6 + low6 b2)
  else None.

Definition four (b0 b1 b2 b3 : ascii) : option N :=
  if (between 0xF0 0xF0 b0 && between 0x90 0xBF b1
      || between 0xF1 0xF3 b0 && between 0x80 0xBF b1
      || between 0xF4 0xF4 b0 && between 0x80 0x8F b1)
     && between 0x80 0xBF b2 && between 0x80 0xBF b3
  then Some (N.shiftl (N.land (N_of_ascii b0) 0x07) 18
             + N.shiftl (low6 b1) 12 + N.shiftl (low6 b2) 6 + low6 b3)
  else None.

Definition cons_to (c : option N) (rest : option (list N)) : option (list N) :=
  match c, rest with
  | Some c, Some rest => Some (c :: rest)
  | _, _ => None
  end.

(** The code points of a byte string under the strict UTF-8 codec
    (no overlong forms, no surrogates, nothing above U+10FFFF);
    [None] where [bytes.decode()] raises. *)
Fixpoint code_points (s : string) : option (list N) :=
  match s with
  | EmptyString => Some []
  | String b0 s1 =>
      if N_of_ascii b0 <? 0x80 then cons_to (Some (N_of_ascii b0)) (code_points s1)
      else if between 0xC2 0xDF b0 then
        match s1 with
        | String b1 s2 => cons_to (two b0 b1) (code_points s2)
        | EmptyString => None
        end
      else if between 0xE0 0xEF b0 then
        match s1 with
        | String b1 (String b2 s3) => cons_to (three b0 b1 b2) (code_points s3)
        | _ => None
        end
      else
        match s1 with
        | String b1 (String b2 (String b3 s4)) =>
            cons_to (four b0 b1 b2 b3) (code_points s4)
        | _ => None
        end
  end.

End Utf8.


(** ** The interpreter's builtins *)

(** What [int(str)] consults of the interpreter's Unicode database, and
    [str.lower] outside ASCII.  These tables change with the Unicode version
    of the interpreter that runs the client, so the embedding takes them as
    given. *)
Class UnicodeData := {
  (** [Py_UNICODE_ISSPACE], asked for code points from 127 on *)
  Py_UNICODE_ISSPACE : N -> bool;
  (** [Py_UNICODE_TODECIMAL], the digit 0..9 of a decimal character *)
  Py_UNICODE_TODECIMAL : N -> option N;
  (** [str.lower] on a text that is not all ASCII *)
  unicode_lower : string -> string
}.

(** A database that knows the spaces of Unicode and two rows of decimal
    digits (Arabic-Indic U+0660.. and fullwidth U+FF10..), and lowers only
    the ASCII letters.  It instantiates the statements below. *)
Definition sample_unicode_data : UnicodeData := {|
  Py_UNICODE_ISSPACE c :=
    existsb (N.eqb c)
      [0x85; 0xA0; 0x1680; 0x2028; 0x2029; 0x202F; 0x205F; 0x3000]%N
    || ((0x2000 <=? c) && (c <=? 0x200A))%N;
  Py_UNICODE_TODECIMAL c :=
    if ((0x660 <=? c) && (c <=? 0x669))%N then Some (c - 0x660)%N
    else if ((0xFF10 <=? c) && (c <=? 0xFF19))%N then Some (c - 0xFF10)%N
    else None;
  unicode_lower := Text.ascii_lower
|}.

Inductive exn : Type :=
| ValueError (message : string)
| TypeError
| AssertionError
| AttributeError
| UnicodeDecodeError.

Inductive result (A : Type) : Type :=
| Ok (a : A)
| Raise (e : exn).
Arguments Ok {A} a.
Arguments Raise {A} e.

Module Builtins.
Section WithUnicode.
Context {ucd : UnicodeData}.

Local Open Scope N_scope.

(** [Py_ISSPACE]: tab, line feed, vertical tab, form feed, carriage return
    and space. *)
Definition Py_ISSPACE (c : N) : bool := ((9 <=? c) && (c <=? 13)) || (c =? 32).

Definition digit_value (c : N) : option Z :=
  if (48 <=? c) && (c <=? 57) then Some (Z.of_N (c - 48)) else None.

(** The loop of [_PyUnicode_TransformDecimalAndSpaceToASCII]: a space of any
    script becomes [' '], a decimal digit of any script its ASCII digit, and
    the text is cut with a ['?'] at the first character that is neither. *)
Fixpoint transform (cps : list N) : list N :=
  match cps with
  | [] => []
  | ch :: rest =>
      if ch <? 127 then ch :: transform rest
      else if Py_UNICODE_ISSPACE ch then 32 :: transform rest
      else match Py_UNICODE_TODECIMAL ch with
           | Some d => (48 + d) :: transform rest
           | None => [63]
           end
  end.

(** An all-ASCII text is handed on as it is. *)
Definition TransformDecimalAndSpaceToASCII (cps : list N) : list N :=
  if forallb (fun c => c <? 128) cps then cps else transform cps.

Fixpoint skip_space (l : list N) : list N :=
  match l with
  | c :: r => if Py_ISSPACE c then skip_space r else l
  | [] => []
  end.

(** The scan of [long_from_string_base] in base 10: digits, with single
    underscores between them.  Gives the value read, the number of digits
    and what follows; [None] for a doubled or a trailing underscore. *)
Fixpoint scan (l : list N) (prev_underscore : bool) (acc : Z) (digits : N)
  : option (Z * N * list N) :=
  match l with
  | c :: r =>
      if c =? 95 then
        if prev_underscore then None else scan r true acc digits
      else
        match digit_value c with
        | Some d => scan r false (10 * acc + d)%Z (digits + 1)
        | None => if prev_underscore then None else Some (acc, digits, l)
        end
  | [] => if prev_underscore then None else Some (acc, digits, [])
  end.

(** [sys.get_int_max_str_digits()], at its default. *)
Definition int_max_str_digits : N := 4300.

(** [PyLong_FromString] in base 10, on the whole text: spaces, a sign, the
    digits, spaces. *)
Definition PyLong_FromString (l : list N) : option Z :=
  let l := skip_space l in
  let '(sign, l) :=
    match l with
    | c :: r => if c =? 43 then (1%Z, r) else if c =? 45 then ((-1)%Z, r) else (1%Z, l)
    | [] => (1%Z, l)
    end in
  match l with
  | [] => None
  | c :: _ =>
      if c =? 95 then None
      else
        match scan l false 0%Z 0 with
        | Some (v, digits, rest) =>
            if digits =? 0 then None
            else
              match skip_space rest with
              | [] => if int_max_str_digits <? digits then None else Some (sign * v)%Z
              | _ :: _ => None
              end
        | None => None
        end
  end.

(** The message of the [ValueError] of [int] names the text; the embedding
    keeps its fixed part. *)
Definition invalid_literal : exn :=
  ValueError "invalid literal for int() with base 10".

(** [int(value)] for a [str]. *)
Definition int (value : string) : result Z :=
  match Utf8.code_points value with
  | Some cps =>
      match PyLong_FromString (TransformDecimalAndSpaceToASCII cps) with
      | Some z => Ok z
      | None => Raise invalid_literal
      end
  | None => Raise invalid_literal
  end.

(** [s.lower()] *)
Definition lower (s : string) : string :=
  if Text.is_ascii s then Text.ascii_lower s else unicode_lower s.

(** [payload.decode()]: UTF-8, strict. *)
Definition decode (payload : string) : result string :=
  match Utf8.code_points payload with
  | Some _ => Ok payload
  | None => Raise UnicodeDecodeError
  end.

End WithUnicode.
End Builtins.


(** ** Data model *)

Inductive FanMode : Type := LOW | MEDIUM | HIGH.

(** [int(speed)] *)
Definition FanMode_value (speed : FanMode) : Z :=
  match speed with LOW => 1 | MEDIUM => 2 | HIGH => 3 end.

(** [FanMode(n)] *)
Definition FanMode_of (n : Z) : result FanMode :=
  if n =? 1 then Ok LOW
  else if n =? 2 then Ok MEDIUM
  else if n =? 3 then Ok HIGH
  else Raise (ValueError "not a valid FanMode").

Inductive PresetMode : Type := HOME | AWAY | BOOST.

(** The value [auto()] gives a [StrEnum] member: its name in lower case. *)
Definition PresetMode_value (m : PresetMode) : string :=
  match m with HOME => "home" | AWAY => "away" | BOOST => "boost" end.

Definition PresetMode_eqb (a b : PresetMode) : bool :=
  String.eqb (PresetMode_value a) (PresetMode_value b).

(** [a == b] where either side may be [None]. *)
Definition preset_eqb (a b : option PresetMode) : bool :=
  match a, b with
  | Some a, Some b => PresetMode_eqb a b
  | None, None => true
  | _, _ => false
  end.

Record EnsyState : Type := {
  is_heating : option bool;
  is_online : bool;
  fan_mode : option FanMode;
  preset_mode : option PresetMode;
  temperature_exhaust : option Z;
  temperature_extract : option Z;
  temperature_heater : option Z;
  temperature_outside : option Z;
  temperature_supply : option Z;
  temperature_target : option Z
}.

(** [EnsyState()] *)
Definition EnsyState_default : EnsyState := {|
  is_heating := None;
  is_online := false;
  fan_mode := None;
  preset_mode := None;
  temperature_exhaust := None;
  temperature_extract := None;
  temperature_heater := None;
  temperature_outside := None;
  temperature_supply := None;
  temperature_target := None
|}.

(** Assignment to one attribute of the state object. *)
Definition put_is_heating v (s : EnsyState) : EnsyState :=
  {| is_heating := v;
     is_online := s.(is_online);
     fan_mode := s.(fan_mode);
     preset_mode := s.(preset_mode);
     temperature_exhaust := s.(temperature_exhaust);
     temperature_extract := s.(temperature_extract);
     temperature_heater := s.(temperature_heater);
     temperature_outside := s.(temperature_outside);
     temperature_supply := s.(temperature_supply);
     temperature_target := s.(temperature_target) |}.
Definition put_is_online v (s : EnsyState) : EnsyState :=
  {| is_heating := s.(is_heating);
     is_online := v;
     fan_mode := s.(fan_mode);
     preset_mode := s.(preset_mode);
     temperature_exhaust := s.(temperature_exhaust);
     temperature_extract := s.(temperature_extract);
     temperature_heater := s.(temperature_heater);
     temperature_outside := s.(temperature_outside);
     temperature_supply := s.(temperature_supply);
     temperature_target := s.(temperature_target) |}.
Definition put_fan_mode v (s : EnsyState) : EnsyState :=
  {| is_heating := s.(is_heating);
     is_online := s.(is_online);
     fan_mode := v;
     preset_mode := s.(preset_mode);
     temperature_exhaust := s.(temperature_exhaust);
     temperature_extract := s.(temperature_extract);
     temperature_heater := s.(temperature_heater);
     temperature_outside := s.(temperature_outside);
     temperature_supply := s.(temperature_supply);
     temperature_target := s.(temperature_target) |}.
Definition put_preset_mode v (s : EnsyState) : EnsyState :=
  {| is_heating := s.(is_heating);
     is_online := s.(is_online);
     fan_mode := s.(fan_mode);
     preset_mode := v;
     temperature_exhaust := s.(temperature_exhaust);
     temperature_extract := s.(temperature_extract);
     temperature_heater := s.(temperature_heater);
     temperature_outside := s.(temperature_outside);
     temperature_supply := s.(temperature_supply);
     temperature_target := s.(temperature_target) |}.
Definition put_temperature_exhaust v (s : EnsyState) : EnsyState :=
  {| is_heating := s.(is_heating);
     is_online := s.(is_online);
     fan_mode := s.(fan_mode);
     preset_mode := s.(preset_mode);
     temperature_exhaust := v;
     temperature_extract := s.(temperature_extract);
     temperature_heater := s.(temperature_heater);
     temperature_outside := s.(temperature_outside);
     temperature_supply := s.(temperature_supply);
     temperature_target := s.(temperature_target) |}.
Definition put_temperature_extract v (s : EnsyState) : EnsyState :=
  {| is_heating := s.(is_heating);
     is_online := s.(is_online);
     fan_mode := s.(fan_mode);
     preset_mode := s.(preset_mode);
     temperature_exhaust := s.(temperature_exhaust);
     temperature_extract := v;
     temperature_heater := s.(temperature_heater);
     temperature_outside := s.(temperature_outside);
     temperature_supply := s.(temperature_supply);
     temperature_target := s.(temperature_target) |}.
Definition put_temperature_heater v (s : EnsyState) : EnsyState :=
  {| is_heating := s.(is_heating);
     is_online := s.(is_online);
     fan_mode := s.(fan_mode);
     preset_mode := s.(preset_mode);
     temperature_exhaust := s.(temperature_exhaust);
     temperature_extract := s.(temperature_extract);
     temperature_heater := v;
     temperature_outside := s.(temperature_outside);
     temperature_supply := s.(temperature_supply);
     temperature_target := s.(temperature_target) |}.
Definition put_temperature_outside v (s : EnsyState) : EnsyState :=
  {| is_heating := s.(is_heating);
     is_online := s.(is_online);
     fan_mode := s.(fan_mode);
     preset_mode := s.(preset_mode);
     temperature_exhaust := s.(temperature_exhaust);
     temperature_extract := s.(temperature_extract);
     temperature_heater := s.(temperature_heater);
     temperature_outside := v;
     temperature_supply := s.(temperature_supply);
     temperature_target := s.(temperature_target) |}.
Definition put_temperature_supply v (s : EnsyState) : EnsyState :=
  {| is_heating := s.(is_heating);
     is_online := s.(is_online);
     fan_mode := s.(fan_mode);
     preset_mode := s.(preset_mode);
     temperature_exhaust := s.(temperature_exhaust);
     temperature_extract := s.(temperature_extract);
     temperature_heater := s.(temperature_heater);
     temperature_outside := s.(temperature_outside);
     temperature_supply := v;
     temperature_target := s.(temperature_target) |}.
Definition put_temperature_target v (s : EnsyState) : EnsyState :=
  {| is_heating := s.(is_heating);
     is_online := s.(is_online);
     fan_mode := s.(fan_mode);
     preset_mode := s.(preset_mode);
     temperature_exhaust := s.(temperature_exhaust);
     temperature_extract := s.(temperature_extract);
     temperature_heater := s.(temperature_heater);
     temperature_outside := s.(temperature_outside);
     temperature_supply := s.(temperature_supply);
     temperature_target := v |}.

(** ** Observers, transport and host *)

(** What the client passes to an observer. *)
Inductive pyval : Type :=
| PStr (s : string)
| PState (st : EnsyState).

(** An entry of [on_state_updated]: a callable of the host application,
    known to the client by how a call of it ends, by returning ([None]) or
    by raising.  What a call does inside the host is not the client's. *)
Record observer : Type := {
  obs_name : string;
  obs_call : list pyval -> option exn
}.

(** The attributes the two binary sensors of [async_setup_entry] read. *)
Inductive state_key : Type := key_is_heating | key_is_online.

Definition getattr (st : EnsyState) (k : state_key) : option bool :=
  match k with
  | key_is_heating => st.(is_heating)
  | key_is_online => Some st.(is_online)
  end.

Definition state_key_name (k : state_key) : string :=
  match k with key_is_heating => "is_heating" | key_is_online => "is_online" end.

(** An [EnsyBinarySensor], by the attributes its observer uses. *)
Record EnsyBinarySensor : Type := {
  _state_key : state_key;
  _attr_is_on : option bool;
  scheduled_updates : nat
}.

Definition option_bool_eqb (a b : option bool) : bool :=
  match a, b with
  | Some a, Some b => Bool.eqb a b
  | None, None => true
  | _, _ => false
  end.

(** [EnsyBinarySensor._on_state_change(self, state)] *)
Definition _on_state_change (sensor : EnsyBinarySensor) (st : EnsyState)
  : result unit * EnsyBinarySensor :=
  let value := getattr st sensor.(_state_key) in
  if option_bool_eqb value sensor.(_attr_is_on) then (Ok tt, sensor)
  else
    match value with
    | None => (Raise AssertionError, sensor)
    | Some _ =>
        (Ok tt, {| _state_key := sensor.(_state_key);
                   _attr_is_on := value;
                   scheduled_updates := S sensor.(scheduled_updates) |})
    end.

Definition raised {A : Type} (r : result A) : option exn :=
  match r with Ok _ => None | Raise e => Some e end.

(** The bound method [sensor._on_state_change] as [async_added_to_hass]
    appends it to [on_state_updated]: a callable of one positional
    parameter, here for the sensor as it is when it registers. *)
Definition binary_sensor_observer (sensor : EnsyBinarySensor) : observer := {|
  obs_name := state_key_name sensor.(_state_key);
  obs_call args :=
    match args with
    | [PState st] => raised (fst (_on_state_change sensor st))
    | [PStr _] => Some AttributeError
    | _ => Some TypeError
    end
|}.

(** [EnsyOnlineSensor(ensy_client, "Connectivity", "is_online")], new. *)
Definition EnsyOnlineSensor : EnsyBinarySensor :=
  {| _state_key := key_is_online; _attr_is_on := None; scheduled_updates := 0 |}.

(** [EnsyHeaterSensor(ensy_client, "Heater element", "is_heating")], new. *)
Definition EnsyHeaterSensor : EnsyBinarySensor :=
  {| _state_key := key_is_heating; _attr_is_on := None; scheduled_updates := 0 |}.

(** A call of the transport handle [self._mqtt_client]. *)
Inductive mqtt_call : Type :=
| setup
| ws_set_options (path : string)
| tls_set
| tls_set_context (check_hostname verify_certificate default_certs : bool)
| connect_async (host : string) (port : Z)
| loop_start
| loop_stop
| mqtt_subscribe (topic : string)
| mqtt_publish (topic payload : string) (qos : Z) (retain : bool).

(** A callable handed to [hass.loop.call_soon_threadsafe]: one of the two
    [_propagate] closures, with what it captured. *)
Inductive task : Type :=
| message_propagate (key value : string)
| disconnect_propagate.

(** The bytes behind the topic of a message, paho's [msg._topic].
    [encoded s] is [s.encode("utf8")] for a text [s], as the tests build a
    topic; [wire b] is any byte string, as a message brings it off the
    wire.  A text stands for its encoding where bytes are wanted, and bytes
    stand for themselves where they are compared with a text. *)
Inductive topic_bytes : Type :=
| encoded (s : string)
| wire (b : string).

Definition bytes_of (t : topic_bytes) : string :=
  match t with
  | encoded s => s
  | wire b => b
  end.

#[warnings="-ambiguous-paths"]
Coercion encoded : string >-> topic_bytes.
#[warnings="-ambiguous-paths"]
Coercion bytes_of : topic_bytes >-> string.

Record MQTTMessage : Type := {
  topic : topic_bytes;
  payload : string
}.

(** [msg.topic]: the property of paho's message decodes the bytes it holds,
    UTF-8 and strict.  The encoding of a text decodes to that text. *)
Definition topic_text (msg : MQTTMessage) : result string :=
  match msg.(topic) with
  | encoded s => Ok s
  | wire b => Builtins.decode b
  end.

(** The attributes of [self]. *)
Record EnsyClient : Type := {
  on_state_updated : list observer;
  allow_insecure_tls : bool;
  mac_address : string;
  device_is_online : bool;
  device_is_discovered : bool;
  _state_topic_prefix : string;
  _apply_state_topic_prefix : string;
  state : EnsyState
}.

(** The client with what it acts on: the transport handle (by the calls
    made on it), the host's loop (by the callables queued on it and the
    exceptions its handler caught), the host's executor (by the jobs handed
    over and not awaited) and the observers (by the calls made of them). *)
Record World : Type := {
  self : EnsyClient;
  _mqtt_client : list mqtt_call;
  loop : list task;
  loop_exceptions : list exn;
  executor : list mqtt_call;
  observed : list (string * list pyval)
}.

(** Assignment to one attribute of [self], and to one part of the world. *)
Definition put_on_state_updated v (c : EnsyClient) : EnsyClient :=
  {| on_state_updated := v;
     allow_insecure_tls := c.(allow_insecure_tls);
     mac_address := c.(mac_address);
     device_is_online := c.(device_is_online);
     device_is_discovered := c.(device_is_discovered);
     _state_topic_prefix := c.(_state_topic_prefix);
     _apply_state_topic_prefix := c.(_apply_state_topic_prefix);
     state := c.(state) |}.
Definition put_device_is_online v (c : EnsyClient) : EnsyClient :=
  {| on_state_updated := c.(on_state_updated);
     allow_insecure_tls := c.(allow_insecure_tls);
     mac_address := c.(mac_address);
     device_is_online := v;
     device_is_discovered := c.(device_is_discovered);
     _state_topic_prefix := c.(_state_topic_prefix);
     _apply_state_topic_prefix := c.(_apply_state_topic_prefix);
     state := c.(state) |}.
Definition put_device_is_discovered v (c : EnsyClient) : EnsyClient :=
  {| on_state_updated := c.(on_state_updated);
     allow_insecure_tls := c.(allow_insecure_tls);
     mac_address := c.(mac_address);
     device_is_online := c.(device_is_online);
     device_is_discovered := v;
     _state_topic_prefix := c.(_state_topic_prefix);
     _apply_state_topic_prefix := c.(_apply_state_topic_prefix);
     state := c.(state) |}.
Definition put_state v (c : EnsyClient) : EnsyClient :=
  {| on_state_updated := c.(on_state_updated);
     allow_insecure_tls := c.(allow_insecure_tls);
     mac_address := c.(mac_address);
     device_is_online := c.(device_is_online);
     device_is_discovered := c.(device_is_discovered);
     _state_topic_prefix := c.(_state_topic_prefix);
     _apply_state_topic_prefix := c.(_apply_state_topic_prefix);
     state := v |}.
Definition with_self v (w : World) : World :=
  {| self := v;
     _mqtt_client := w.(_mqtt_client);
     loop := w.(loop);
     loop_exceptions := w.(loop_exceptions);
     executor := w.(executor);
     observed := w.(observed) |}.
Definition with__mqtt_client v (w : World) : World :=
  {| self := w.(self);
     _mqtt_client := v;
     loop := w.(loop);
     loop_exceptions := w.(loop_exceptions);
     executor := w.(executor);
     observed := w.(observed) |}.
Definition with_loop v (w : World) : World :=
  {| self := w.(self);
     _mqtt_client := w.(_mqtt_client);
     loop := v;
     loop_exceptions := w.(loop_exceptions);
     executor := w.(executor);
     observed := w.(observed) |}.
Definition with_loop_exceptions v (w : World) : World :=
  {| self := w.(self);
     _mqtt_client := w.(_mqtt_client);
     loop := w.(loop);
     loop_exceptions := v;
     executor := w.(executor);
     observed := w.(observed) |}.
Definition with_executor v (w : World) : World :=
  {| self := w.(self);
     _mqtt_client := w.(_mqtt_client);
     loop := w.(loop);
     loop_exceptions := w.(loop_exceptions);
     executor := v;
     observed := w.(observed) |}.
Definition with_observed v (w : World) : World :=
  {| self := w.(self);
     _mqtt_client := w.(_mqtt_client);
     loop := w.(loop);
     loop_exceptions := w.(loop_exceptions);
     executor := w.(executor);
     observed := v |}.

(** ** The monad of the client's methods

    A method runs in a world and ends by returning or by raising; what it
    did before raising stays done. *)

Definition M (A : Type) : Type := World -> result A * World.

Definition ret {A : Type} (a : A) : M A := fun w => (Ok a, w).

Definition bind {A B : Type} (m : M A) (f : A -> M B) : M B :=
  fun w =>
    match m w with
    | (Ok a, w') => f a w'
    | (Raise e, w') => (Raise e, w')
    end.

Definition raise {A : Type} (e : exn) : M A := fun w => (Raise e, w).

(** The outcome of a builtin, inside a method. *)
Definition lift {A : Type} (r : result A) : M A := fun w => (r, w).

Definition gets {A : Type} (f : World -> A) : M A := fun w => (Ok (f w), w).

Definition modify (f : World -> World) : M unit := fun w => (Ok tt, f w).

Declare Scope py_scope.
Delimit Scope py_scope with py.
Notation "x <- c1 ;; c2" := (bind c1 (fun x => c2))
  (at level 100, c1 at next level, right associativity) : py_scope.
Notation "c1 ;; c2" := (bind c1 (fun _ => c2))
  (at level 100, right associativity) : py_scope.
Notation "'when' b 'then' c" := (if b then c else ret tt)
  (at level 100, b at next level, right associativity) : py_scope.
Notation "a == b" := (String.eqb a b) (at level 70, no associativity) : py_scope.
Open Scope py_scope.

(** The world a method leaves, and how it ended. *)
Definition exec {A : Type} (m : M A) (w : World) : World := snd (m w).
Definition outcome {A : Type} (m : M A) (w : World) : result A := fst (m w).

(** Reads of [self]. *)
Definition getself {A : Type} (f : EnsyClient -> A) : M A :=
  gets (fun w => f w.(self)).

(** [self.state.<attribute> = v] *)
Definition assign (set : EnsyState -> EnsyState) : M unit :=
  modify (fun w => with_self (put_state (set w.(self).(state)) w.(self)) w).

(** [self.device_is_online.set()] and [.clear()], [self.device_is_discovered.set()] *)
Definition device_is_online_set : M unit :=
  modify (fun w => with_self (put_device_is_online true w.(self)) w).
Definition device_is_online_clear : M unit :=
  modify (fun w => with_self (put_device_is_online false w.(self)) w).
Definition device_is_discovered_set : M unit :=
  modify (fun w => with_self (put_device_is_discovered true w.(self)) w).

(** A call [self._mqtt_client.<method>(...)]. *)
Definition mqtt (c : mqtt_call) : M unit :=
  modify (fun w => with__mqtt_client (w.(_mqtt_client) ++ [c]) w).

(** [self.hass.loop.call_soon_threadsafe(t)] *)
Definition call_soon_threadsafe (t : task) : M unit :=
  modify (fun w => with_loop (w.(loop) ++ [t]) w).

(** [self.hass.async_add_executor_job(job)], not awaited. *)
Definition async_add_executor_job (job : mqtt_call) : M unit :=
  modify (fun w => with_executor (w.(executor) ++ [job]) w).

(** A call [callback(args...)]. *)
Definition call (callback : observer) (args : list pyval) : M unit :=
  fun w =>
    let w' := with_observed (w.(observed) ++ [(callback.(obs_name), args)]) w in
    match callback.(obs_call) args with
    | None => (Ok tt, w')
    | Some e => (Raise e, w')
    end.

(** [for callback in callbacks: body(callback)] *)
Fixpoint for_each (callbacks : list observer) (body : observer -> M unit) : M unit :=
  match callbacks with
  | [] => ret tt
  | callback :: rest => body callback ;; for_each rest body
  end.

(** ** The client *)

Definition API_HOST : string := "app.ensy.no".
Definition API_PORT : Z := 8083.

Definition MIN_TEMPERATURE : Z := 15.
Definition MAX_TEMPERATURE : Z := 26.

(** The defaults of [publish]: [qos=1], [retain=True]. *)
Definition default_qos : Z := 1.
Definition default_retain : bool := true.

Section Client.
Context {ucd : UnicodeData}.

(** [EnsyClient.__init__(hass, mac_address, allow_insecure_tls)] *)
Definition __init__ (mac_address : string) (allow_insecure_tls : bool) : World :=
  let mac := Builtins.lower (Text.remove_char ":"%char mac_address) in
  {| self :=
       {| on_state_updated := [];
          allow_insecure_tls := allow_insecure_tls;
          mac_address := mac;
          device_is_online := false;
          device_is_discovered := false;
          _state_topic_prefix := "units/" ++ mac ++ "/unit/";
          _apply_state_topic_prefix := "units/" ++ mac ++ "/app/";
          state := EnsyState_default |};
     _mqtt_client := [setup; ws_set_options "/mqtt"];
     loop := [];
     loop_exceptions := [];
     executor := [];
     observed := [] |}.

(** [self.on_state_updated.append(callback)], as the entities do. *)
Definition on_state_updated_append (callback : observer) : M unit :=
  modify (fun w =>
    with_self (put_on_state_updated (w.(self).(on_state_updated) ++ [callback])
                                    w.(self)) w).

(** The executor job of [_configure_insecure_tls] is awaited, so its call of
    the transport is made before the method goes on. *)
Definition _configure_insecure_tls : M unit :=
  mqtt (tls_set_context false false true).

Definition _configure_secure_tls : M unit :=
  mqtt tls_set.

Definition configure_tls : M unit :=
  insecure <- getself allow_insecure_tls ;;
  if insecure then _configure_insecure_tls else _configure_secure_tls.

Definition connect : M unit :=
  configure_tls ;;
  mqtt (connect_async API_HOST API_PORT) ;;
  mqtt loop_start.

Definition stop : M unit :=
  async_add_executor_job loop_stop.

Definition subscribe (topic : string) : M unit :=
  mqtt (mqtt_subscribe topic).

Definition publish (topic payload : string) (qos : Z) (retain : bool) : M unit :=
  mqtt (mqtt_publish topic payload qos retain).

Definition set_target_temperature (temperature : Z) : M unit :=
  if negb ((MIN_TEMPERATURE <=? temperature) && (temperature <=? MAX_TEMPERATURE))
  then raise (ValueError "Temperature out of bounds")
  else
    prefix <- getself _apply_state_topic_prefix ;;
    publish (prefix ++ "temperature") (Text.str temperature)
            default_qos default_retain.

Definition apply_state (key value : string) : M unit :=
  prefix <- getself _apply_state_topic_prefix ;;
  publish (prefix ++ key) value default_qos default_retain.

Definition set_preset_mode (preset_mode' : PresetMode) : M unit :=
  current <- getself (fun c => c.(state).(preset_mode)) ;;
  if preset_eqb (Some preset_mode') current then ret tt
  else
    match preset_mode' with
    | HOME =>
        apply_state "absent" "0" ;;
        apply_state "party" "2"
    | AWAY =>
        apply_state "absent" "1"
    | BOOST =>
        apply_state "party" "1"
    end.

Definition set_fan_mode (speed : FanMode) : M unit :=
  current <- getself (fun c => c.(state).(preset_mode)) ;;
  (when negb (preset_eqb current (Some HOME)) then
     set_preset_mode HOME) ;;
  prefix <- getself _apply_state_topic_prefix ;;
  publish (prefix ++ "fan") (Text.str (FanMode_value speed))
          default_qos default_retain.

(** [_on_connect(client, userdata, flags, rc)] *)
Definition _on_connect (rc : Z) : M unit :=
  if negb (rc =? 0) then ret tt
  else
    prefix <- getself _state_topic_prefix ;;
    mqtt (mqtt_subscribe (prefix ++ "#")).

(** The [match key] statement of the closure [_propagate] of [_on_message].
    It answers [false] where the source returns from its last case, before
    the observers, and [true] after every other case. *)
Definition _propagate_match (key value : string) : M bool :=
    (if key == "temperature" then
       n <- lift (Builtins.int value) ;;
       assign (put_temperature_target (Some n)) ;; ret true
     else if key == "status" then
       assign (put_is_online (value == "online")) ;;
       online <- getself (fun c => c.(state).(is_online)) ;;
       latched <- getself device_is_online ;;
       (when online && negb latched then device_is_online_set) ;;
       ret true
     else if (key == "fan") && Text.mem value ["1"; "2"; "3"] then
       n <- lift (Builtins.int value) ;;
       mode <- lift (FanMode_of n) ;;
       assign (put_fan_mode (Some mode)) ;; ret true
     else if key == "party" then
       (if value == "1"
        then assign (put_preset_mode (Some BOOST))
        else assign (put_preset_mode (Some HOME))) ;;
       ret true
     else if key == "absent" then
       (if value == "1"
        then assign (put_preset_mode (Some AWAY))
        else assign (put_preset_mode (Some HOME))) ;;
       ret true
     else if key == "textr" then
       n <- lift (Builtins.int value) ;;
       assign (put_temperature_extract (Some n)) ;; ret true
     else if key == "texauh" then
       n <- lift (Builtins.int value) ;;
       assign (put_temperature_exhaust (Some n)) ;; ret true
     else if key == "tsupl" then
       n <- lift (Builtins.int value) ;;
       assign (put_temperature_supply (Some n)) ;; ret true
     else if key == "tout" then
       n <- lift (Builtins.int value) ;;
       assign (put_temperature_outside (Some n)) ;; ret true
     else if key == "overheating" then
       n <- lift (Builtins.int value) ;;
       assign (put_temperature_heater (Some n)) ;; ret true
     else if key == "he" then
       assign (put_is_heating (Some (value == "1"))) ;; ret true
     else ret false).

(** The closure [_propagate] of [_on_message], with the [key] and [value]
    it captured. *)
Definition _on_message_propagate (key value : string) : M unit :=
  discovered <- getself device_is_discovered ;;
  (when negb discovered then device_is_discovered_set) ;;
  known <- _propagate_match key value ;;
  when known then
    callbacks <- getself on_state_updated ;;
    for_each callbacks (fun callback =>
      st <- getself state ;;
      call callback [PState st]).

(** [_on_message(client, userdata, msg)].  The payload is decoded first;
    [msg.topic] is read next, for the line of the log, and again for the
    test of the prefix and for the key. *)
Definition _on_message (msg : MQTTMessage) : M unit :=
  value <- lift (Builtins.decode msg.(payload)) ;;
  text <- lift (topic_text msg) ;;
  prefix <- getself _state_topic_prefix ;;
  if negb (Text.startswith text prefix) then ret tt
  else
    let key := Text.slice_from (String.length prefix) text in
    call_soon_threadsafe (message_propagate key value).

(** The closure [_propagate] of [_on_disconnect]. *)
Definition _on_disconnect_propagate : M unit :=
  device_is_online_clear ;;
  assign (put_is_online false) ;;
  callbacks <- getself on_state_updated ;;
  for_each callbacks (fun callback =>
    st <- getself state ;;
    call callback [PStr "status"; PStr "offline"; PState st]).

Definition _on_disconnect : M unit :=
  call_soon_threadsafe disconnect_propagate.

Definition _on_connect_fail : M unit :=
  ret tt.

(** ** The host's loop *)

Definition run_task (t : task) : M unit :=
  match t with
  | message_propagate key value => _on_message_propagate key value
  | disconnect_propagate => _on_disconnect_propagate
  end.

(** The loop's exception handler: an exception a callable raises is
    recorded and the loop goes on. *)
Definition handle (ended : result unit * World) : World :=
  match ended with
  | (Ok _, w') => w'
  | (Raise e, w') => with_loop_exceptions (w'.(loop_exceptions) ++ [e]) w'
  end.

(** One turn of the loop: the callable at the head of the queue runs. *)
Definition run_once (w : World) : World :=
  match w.(loop) with
  | [] => w
  | t :: rest => handle (run_task t (with_loop rest w))
  end.

Fixpoint run_loop (turns : nat) (w : World) : World :=
  match turns with
  | O => w
  | S n => run_loop n (run_once w)
  end.

(** [hass.async_block_till_done()]: the loop turns until its queue is
    empty.  No callable of the client queues another, so one turn for each
    queued callable does it. *)
Definition async_block_till_done (w : World) : World :=
  run_loop (List.length w.(loop)) w.

(** A message arrives and the loop runs what was queued. *)
Definition deliver (msg : MQTTMessage) (w : World) : World :=
  async_block_till_done (exec (_on_message msg) w).

(** The transport reports a disconnect and the loop runs what was queued. *)
Definition disconnect (w : World) : World :=
  async_block_till_done (exec _on_disconnect w).

(** The message the device sends for [key], as the tests build it: the
    topic is the encoding of the prefix and the key. *)
Definition state_message (w : World) (key value : string) : MQTTMessage :=
  {| topic := w.(self).(_state_topic_prefix) ++ key; payload := value |}.

(** [apply_state_messages(states)] of the tests' client: each message is
    handed to [_on_message], then the loop runs. *)
Fixpoint apply_state_messages (states : list (string * string)) (w : World) : World :=
  match states with
  | [] => async_block_till_done w
  | (key, value) :: rest =>
      apply_state_messages rest (exec (_on_message (state_message w key value)) w)
  end.

(** Each message is handed over and the loop runs before the next. *)
Definition decode_each (states : list (string * string)) (w : World) : World :=
  fold_left (fun w kv => deliver (state_message w (fst kv) (snd kv)) w) states w.

(** ** Everything that can happen to a client *)

Inductive operation : Type :=
| op_connect
| op_stop
| op_subscribe (topic : string)
| op_publish (topic payload : string) (qos : Z) (retain : bool)
| op_set_target_temperature (temperature : Z)
| op_set_fan_mode (speed : FanMode)
| op_apply_state (key value : string)
| op_set_preset_mode (mode : PresetMode)
| op_append_observer (callback : observer)
| op_on_connect (rc : Z)
| op_on_message (msg : MQTTMessage)
| op_on_disconnect
| op_on_connect_fail
| op_loop_turn.

Definition step (o : operation) (w : World) : World :=
  match o with
  | op_connect => exec connect w
  | op_stop => exec stop w
  | op_subscribe t => exec (subscribe t) w
  | op_publish t p q r => exec (publish t p q r) w
  | op_set_target_temperature t => exec (set_target_temperature t) w
  | op_set_fan_mode s => exec (set_fan_mode s) w
  | op_apply_state k v => exec (apply_state k v) w
  | op_set_preset_mode m => exec (set_preset_mode m) w
  | op_append_observer c => exec (on_state_updated_append c) w
  | op_on_connect rc => exec (_on_connect rc) w
  | op_on_message msg => exec (_on_message msg) w
  | op_on_disconnect => exec _on_disconnect w
  | op_on_connect_fail => exec _on_connect_fail w
  | op_loop_turn => run_once w
  end.

Definition run (ops : list operation) (w : World) : World :=
  fold_left (fun w o => step o w) ops w.

(** The publishes among the calls of the transport, in order. *)
Definition publishes (calls : list mqtt_call) : list (string * string) :=
  flat_map (fun c =>
    match c with
    | mqtt_publish t p _ _ => [(t, p)]
    | _ => []
    end) calls.

(** The keys the [match] of [_propagate] has a case for. *)
Definition decoded_keys : list string :=
  ["temperature"; "status"; "fan"; "party"; "absent"; "textr"; "texauh";
   "tsupl"; "tout"; "overheating"; "he"].

(** The observers a notification with [args] reaches: each in turn, up to
    and with the first whose call raises. *)
Fixpoint reached (callbacks : list observer) (args : list pyval) : list observer :=
  match callbacks with
  | [] => []
  | callback :: rest =>
      callback ::
        match callback.(obs_call) args with
        | None => reached rest args
        | Some _ => []
        end
  end.

(** How that notification ends. *)
Fixpoint notified (callbacks : list observer) (args : list pyval) : result unit :=
  match callbacks with
  | [] => Ok tt
  | callback :: rest =>
      match callback.(obs_call) args with
      | None => notified rest args
      | Some e => Raise e
      end
  end.

(** The record of the calls of [callbacks] with [args]. *)
Definition calls_of (callbacks : list observer) (args : list pyval)
  : list (string * list pyval) :=
  map (fun callback => (callback.(obs_name), args)) callbacks.

(** What a forced-offline notification passes, and what the declared type
    [Callable[[EnsyState], None]] of an observer takes. *)
Definition offline_arguments (st : EnsyState) : list pyval :=
  [PStr "status"; PStr "offline"; PState st].
Definition snapshot_arguments (st : EnsyState) : list pyval :=
  [PState st].

(** Two clients with the same address, topics and observers; they may
    differ in the state object and in the latches. *)
Definition same_identity (c c' : EnsyClient) : Prop :=
  c'.(on_state_updated) = c.(on_state_updated)
  /\ c'.(allow_insecure_tls) = c.(allow_insecure_tls)
  /\ c'.(mac_address) = c.(mac_address)
  /\ c'.(_state_topic_prefix) = c.(_state_topic_prefix)
  /\ c'.(_apply_state_topic_prefix) = c.(_apply_state_topic_prefix).

(** Two worlds with the same Device State and the same callables queued. *)
Definition same_state (w1 w2 : World) : Prop :=
  w1.(self).(state) = w2.(self).(state) /\ w1.(loop) = w2.(loop).

(** The messages of the end-to-end scenario of the tests. *)
Definition scenario : list (string * string) :=
  [("status", "online"); ("fan", "2"); ("party", "0"); ("absent", "0");
   ("textr", "18"); ("texauh", "19"); ("tsupl", "20"); ("tout", "21");
   ("overheating", "22"); ("he", "1")].

End Client.

(** A client as [async_setup_entry] leaves it before it connects: new, with
    the observers of the two binary sensors. *)
Definition client_with_sensors : World :=
  let _ := sample_unicode_data in
  exec (on_state_updated_append (binary_sensor_observer EnsyHeaterSensor) ;;
        on_state_updated_append (binary_sensor_observer EnsyOnlineSensor))
       (__init__ "00:00:00:00:00:00" false).

(** The same client once the device has reported [status=online], and once
    it has reported [absent=1]. *)
Definition online_client : World :=
  let _ := sample_unicode_data in
  deliver (state_message client_with_sensors "status" "online") client_with_sensors.

Definition away_client : World :=
  let _ := sample_unicode_data in
  deliver (state_message client_with_sensors "absent" "1") client_with_sensors.

(** ** What the further properties speak of *)

(** The publishes of a run of commands: one for each pair of key and value,
    to the command topic of the key, with the defaults of [publish]. *)
Definition command_publishes (w : World) (commands : list (string * string))
  : list mqtt_call :=
  map (fun kv =>
         mqtt_publish (w.(self).(_apply_state_topic_prefix) ++ fst kv) (snd kv)
                      default_qos default_retain)
      commands.

(** The keys and values [set_preset_mode] hands to [apply_state] for a mode. *)
Definition preset_commands (m : PresetMode) : list (string * string) :=
  match m with
  | HOME => [("absent", "0"); ("party", "2")]
  | AWAY => [("absent", "1")]
  | BOOST => [("party", "1")]
  end.

(** The keys whose payload goes through [int], each with the attribute its
    case assigns. *)
Definition numeric_fields : list (string * (option Z -> EnsyState -> EnsyState)) :=
  [("temperature", put_temperature_target);
   ("textr", put_temperature_extract);
   ("texauh", put_temperature_exhaust);
   ("tsupl", put_temperature_supply);
   ("tout", put_temperature_outside);
   ("overheating", put_temperature_heater)].

(** What the loop's handler adds to its record when a callable ends. *)
Definition caught (ended : result unit) : list exn :=
  match ended with
  | Ok _ => []
  | Raise e => [e]
  end.

(** The topics and payloads of those publishes. *)
Definition command_publishes_names (w : World) (commands : list (string * string))
  : list (string * string) :=
  map (fun kv => (w.(self).(_apply_state_topic_prefix) ++ fst kv, snd kv)) commands.

Definition is_known {A : Type} (o : option A) : bool :=
  match o with
  | Some _ => true
  | None => false
  end.

(** Which of the attributes that start unknown are known. *)
Definition known_fields (st : EnsyState) : list bool :=
  [is_known st.(is_heating); is_known st.(fan_mode); is_known st.(preset_mode);
   is_known st.(temperature_exhaust); is_known st.(temperature_extract);
   is_known st.(temperature_heater); is_known st.(temperature_outside);
   is_known st.(temperature_supply); is_known st.(temperature_target)].

(** Every attribute known in [st] is known in [st']. *)
Definition keeps_known (st st' : EnsyState) : Prop :=
  Forall2 (fun before after => before = true -> after = true)
          (known_fields st) (known_fields st').

(** The closures [_on_message] queues for a run of device messages: one for
    each payload that decodes. *)
Definition tasks_of (states : list (string * string)) : list task :=
  flat_map (fun kv =>
              match Utf8.code_points (snd kv) with
              | Some _ => [message_propagate (fst kv) (snd kv)]
              | None => []
              end)
           states.

(** The loop runs the callables of a queue one after the other. *)
Definition run_queue {ucd : UnicodeData} (ts : list task) (w : World) : World :=
  fold_left (fun w t => handle (run_task t w)) ts w.

(** [c in s] for a character. *)
Fixpoint occurs (c : ascii) (s : string) : bool :=
  match s with
  | EmptyString => false
  | String a s' => Ascii.eqb a c || occurs c s'
  end.

Definition is_upper (a : ascii) : bool :=
  ((65 <=? N_of_ascii a) && (N_of_ascii a <=? 90))%N.

Fixpoint any_upper (s : string) : bool :=
  match s with
  | EmptyString => false
  | String a s' => is_upper a || any_upper s'
  end.

(** The online latch is not behind the Device State. *)
Definition online_is_latched (w : World) : Prop :=
  w.(self).(state).(is_online) = true -> w.(self).(device_is_online) = true.

(** The subscriptions among the calls of the transport, in order. *)
Definition subscriptions (calls : list mqtt_call) : list string :=
  flat_map (fun c =>
    match c with
    | mqtt_subscribe t => [t]
    | _ => []
    end) calls.

(** A topic off the wire that begins with the state prefix of
    [client_with_sensors] and ends in the byte 255: it is not UTF-8. *)
Definition unreadable_topic : string :=
  "units/000000000000/unit/" ++ String (ascii_of_N 255) EmptyString.

(** * Properties *)

(** ** Text *)

Lemma startswith_app (p k : string) : Text.startswith (p ++ k) p = true.
Proof.
  induction p as [|a p IH]; simpl; [reflexivity|].
  now rewrite Ascii.eqb_refl, IH.
Qed.

Lemma slice_from_app (p k : string) :
  Text.slice_from (String.length p) (p ++ k) = k.
Proof.
  induction p as [|a p IH]; simpl; [now destruct k | exact IH].
Qed.

(** ** The world *)

Lemma world_eta (w : World) :
  {| self := w.(self); _mqtt_client := w.(_mqtt_client); loop := w.(loop);
     loop_exceptions := w.(loop_exceptions); executor := w.(executor);
     observed := w.(observed) |} = w.
Proof. now destruct w. Qed.

(** ** Notification *)

(** A notification changes nothing but the record of the observers' calls:
    it reaches the observers in order up to the first that raises, each
    with the state as it is. *)
Lemma for_each_call (args : EnsyState -> list pyval) (callbacks : list observer)
  (w : World) :
  for_each callbacks (fun callback => st <- getself state ;; call callback (args st)) w
  = (notified callbacks (args w.(self).(state)),
     with_observed
       (w.(observed)
        ++ calls_of (reached callbacks (args w.(self).(state)))
                    (args w.(self).(state))) w).
Proof.
  revert w; induction callbacks as [|c rest IH]; intros w.
  - simpl. unfold ret, with_observed, calls_of. simpl.
    now rewrite app_nil_r, world_eta.
  - cbn [for_each notified reached].
    unfold bind at 1. unfold bind at 1.
    unfold getself, gets, call. cbn beta iota.
    destruct (obs_call c (args (state (self w)))) as [e|] eqn:E.
    + unfold calls_of, with_observed; simpl. reflexivity.
    + rewrite IH. unfold calls_of, with_observed; simpl.
      now rewrite <- app_assoc.
Qed.

Create HintDb py discriminated.
#[local] Hint Unfold set_fan_mode set_preset_mode set_target_temperature
  apply_state publish subscribe default_qos default_retain
  device_is_online_set device_is_online_clear device_is_discovered_set
  assign mqtt call_soon_threadsafe async_add_executor_job
  getself gets modify lift raise ret bind exec outcome : py.

Ltac run_monad := repeat autounfold with py; cbn.

Ltac run_method :=
  run_monad; unfold with__mqtt_client; cbn; rewrite <- ?app_assoc; cbn.

(** Opens a world down to the attributes of its state object. *)
Ltac open_world w :=
  let c := fresh "c" in
  let st := fresh "st" in
  destruct w as [c ? ? ? ? ?]; destruct c as [? ? ? ? ? ? ? st]; destruct st;
  cbn in *.

Ltac split_cases :=
  repeat first
    [ match goal with
      | |- context [if ?b then _ else _] => destruct b
      | |- context [Builtins.int ?v] => destruct (Builtins.int v)
      | |- context [FanMode_of ?n] => destruct (FanMode_of n)
      end
    | progress run_monad ].

(** ** What the callables of the loop change *)

Section Properties.
Context {ucd : UnicodeData}.

Lemma same_identity_trans (a b c : EnsyClient) :
  same_identity a b -> same_identity b c -> same_identity a c.
Proof.
  unfold same_identity. intros (?&?&?&?&?) (?&?&?&?&?).
  repeat split; congruence.
Qed.

Lemma propagate_match_frame (key value : string) (w : World) :
  exists c', exec (_propagate_match key value) w = with_self c' w
             /\ same_identity w.(self) c'
             /\ c'.(device_is_discovered) = w.(self).(device_is_discovered).
Proof.
  destruct w as [c m l le ex ob]. unfold _propagate_match.
  split_cases.
  all: unfold with_self; cbn.
  all: eexists; (split; [reflexivity | destruct c; now repeat split]).
Qed.

Lemma propagate_match_unknown (key value : string) (w : World) :
  ~ In key decoded_keys ->
  _propagate_match key value w = (Ok false, w).
Proof.
  intros H.
  assert (Hne : forall k, In k decoded_keys -> (key == k) = false).
  { intros k Hk. apply String.eqb_neq. intros ->. contradiction. }
  unfold _propagate_match.
  repeat match goal with
         | |- context [String.eqb key ?k] => rewrite (Hne k) by (simpl; tauto)
         end.
  reflexivity.
Qed.

(** The closure of a message, by its parts. *)
Lemma on_message_propagate_eq (key value : string) (w : World) :
  _on_message_propagate key value w =
  let w1 := with_self (put_device_is_discovered true w.(self)) w in
  match _propagate_match key value w1 with
  | (Ok true, w2) =>
      let args := snapshot_arguments w2.(self).(state) in
      let callbacks := w2.(self).(on_state_updated) in
      (notified callbacks args,
       with_observed (w2.(observed) ++ calls_of (reached callbacks args) args) w2)
  | (Ok false, w2) => (Ok tt, w2)
  | (Raise e, w2) => (Raise e, w2)
  end.
Proof.
  unfold _on_message_propagate.
  unfold bind at 1. unfold getself at 1, gets. cbn beta iota.
  assert (E : (when negb (device_is_discovered (self w)) then device_is_discovered_set) w
              = (Ok tt, with_self (put_device_is_discovered true (self w)) w)).
  { destruct w as [c m l le ex ob], c as [a b c' d e f g h]; cbn.
    destruct e; reflexivity. }
  unfold bind at 1. rewrite E. cbn beta iota zeta.
  unfold bind at 1.
  destruct (_propagate_match key value _) as [[[|]|e] w2]; try reflexivity.
  unfold bind at 1. unfold getself at 1, gets. cbn beta iota.
  apply (for_each_call snapshot_arguments).
Qed.


Lemma on_disconnect_propagate_eq (w : World) :
  _on_disconnect_propagate w =
  let c := put_state (put_is_online false w.(self).(state))
                     (put_device_is_online false w.(self)) in
  let args := offline_arguments c.(state) in
  let callbacks := c.(on_state_updated) in
  (notified callbacks args,
   with_observed (w.(observed) ++ calls_of (reached callbacks args) args)
                 (with_self c w)).
Proof.
  unfold _on_disconnect_propagate.
  unfold bind at 1. unfold device_is_online_clear, modify at 1. cbn beta iota.
  unfold bind at 1. unfold assign, modify at 1. cbn beta iota.
  unfold bind at 1. unfold getself at 1, gets. cbn beta iota.
  rewrite (for_each_call offline_arguments). reflexivity.
Qed.

(** The topic property gives the bytes of the topic as text, or raises. *)
Lemma topic_text_cases (msg : MQTTMessage) :
  topic_text msg = Ok (bytes_of msg.(topic))
  \/ topic_text msg = Raise UnicodeDecodeError.
Proof.
  unfold topic_text, Builtins.decode. destruct (topic msg) as [s|b]; cbn.
  - now left.
  - destruct (Utf8.code_points b); [now left | now right].
Qed.

Lemma topic_text_ok (msg : MQTTMessage) (text : string) :
  topic_text msg = Ok text -> text = bytes_of msg.(topic).
Proof.
  intros H. destruct (topic_text_cases msg) as [E|E]; rewrite E in H.
  - now injection H.
  - discriminate.
Qed.

(** What [_on_message] queues. *)
Lemma on_message_undecodable (msg : MQTTMessage) (w : World) :
  Utf8.code_points msg.(payload) = None ->
  _on_message msg w = (Raise UnicodeDecodeError, w).
Proof.
  intros H. unfold _on_message, bind, lift, Builtins.decode. now rewrite H.
Qed.

Lemma on_message_unreadable (msg : MQTTMessage) (w : World) :
  Utf8.code_points msg.(payload) <> None ->
  topic_text msg = Raise UnicodeDecodeError ->
  _on_message msg w = (Raise UnicodeDecodeError, w).
Proof.
  intros Hp Ht. unfold _on_message, bind, lift, Builtins.decode.
  destruct (Utf8.code_points (payload msg)); [|contradiction].
  now rewrite Ht.
Qed.

Lemma on_message_foreign (msg : MQTTMessage) (w : World) :
  Text.startswith msg.(topic) w.(self).(_state_topic_prefix) = false ->
  exec (_on_message msg) w = w.
Proof.
  intros H. unfold exec, _on_message, bind, lift, Builtins.decode.
  destruct (Utf8.code_points (payload msg)); [|reflexivity].
  destruct (topic_text_cases msg) as [E|E]; rewrite E; [|reflexivity].
  unfold getself, gets. cbn. now rewrite H.
Qed.

Lemma on_message_ours (msg : MQTTMessage) (w : World) :
  Utf8.code_points msg.(payload) <> None ->
  topic_text msg = Ok (bytes_of msg.(topic)) ->
  Text.startswith msg.(topic) w.(self).(_state_topic_prefix) = true ->
  _on_message msg w =
  (Ok tt,
   with_loop
     (w.(loop)
      ++ [message_propagate
            (Text.slice_from (String.length w.(self).(_state_topic_prefix)) msg.(topic))
            msg.(payload)]) w).
Proof.
  intros Hp Ht H. unfold _on_message, bind, lift, Builtins.decode.
  destruct (Utf8.code_points (payload msg)); [|contradiction].
  rewrite Ht. unfold getself, gets. cbn. now rewrite H.
Qed.

Lemma on_message_state_message (key value : string) (w : World) :
  Utf8.code_points value <> None ->
  _on_message (state_message w key value) w =
  (Ok tt, with_loop (w.(loop) ++ [message_propagate key value]) w).
Proof.
  intros Hp. rewrite on_message_ours; cbn; try assumption.
  - now rewrite slice_from_app.
  - reflexivity.
  - apply startswith_app.
Qed.

Lemma async_block_till_done_idle (w : World) :
  w.(loop) = [] -> async_block_till_done w = w.
Proof. intros H. unfold async_block_till_done. now rewrite H. Qed.

(** With nothing else queued, a message of the device is decoded by its
    closure, under the loop's handler. *)
Lemma deliver_ours (msg : MQTTMessage) (w : World) :
  w.(loop) = [] ->
  Utf8.code_points msg.(payload) <> None ->
  topic_text msg = Ok (bytes_of msg.(topic)) ->
  Text.startswith msg.(topic) w.(self).(_state_topic_prefix) = true ->
  deliver msg w =
  handle (_on_message_propagate
            (Text.slice_from (String.length w.(self).(_state_topic_prefix)) msg.(topic))
            msg.(payload) w).
Proof.
  intros Hl Hp Ht H. unfold deliver, exec.
  rewrite on_message_ours by assumption.
  rewrite Hl. cbn. unfold run_once. cbn.
  replace (with_loop [] (with_loop _ w)) with w; [reflexivity|].
  destruct w; cbn in *; now subst.
Qed.

Lemma deliver_state_message (key value : string) (w : World) :
  w.(loop) = [] ->
  Utf8.code_points value <> None ->
  deliver (state_message w key value) w
  = handle (_on_message_propagate key value w).
Proof.
  intros Hl Hp. rewrite deliver_ours; try assumption.
  - unfold state_message; cbn [topic payload bytes_of]. now rewrite slice_from_app.
  - reflexivity.
  - apply startswith_app.
Qed.

Lemma deliver_ignored (msg : MQTTMessage) (w : World) :
  w.(loop) = [] ->
  Utf8.code_points msg.(payload) = None
  \/ Text.startswith msg.(topic) w.(self).(_state_topic_prefix) = false ->
  deliver msg w = w.
Proof.
  intros Hl [H|H]; unfold deliver.
  - unfold exec. rewrite on_message_undecodable by assumption.
    now apply async_block_till_done_idle.
  - rewrite on_message_foreign by assumption.
    now apply async_block_till_done_idle.
Qed.

Lemma deliver_unreadable (msg : MQTTMessage) (w : World) :
  w.(loop) = [] ->
  topic_text msg = Raise UnicodeDecodeError ->
  deliver msg w = w.
Proof.
  intros Hl Ht.
  destruct (Utf8.code_points msg.(payload)) as [cps|] eqn:Hp;
    [|apply deliver_ignored; auto].
  unfold deliver, exec. rewrite on_message_unreadable by congruence.
  now apply async_block_till_done_idle.
Qed.

Lemma disconnect_eq (w : World) :
  w.(loop) = [] -> disconnect w = handle (_on_disconnect_propagate w).
Proof.
  intros Hl. unfold disconnect, exec, _on_disconnect, call_soon_threadsafe, modify.
  cbn. rewrite Hl. cbn. unfold run_once. cbn.
  replace (with_loop [] (with_loop _ w)) with w; [reflexivity|].
  destruct w; cbn in *; now subst.
Qed.

Lemma self_handle (ended : result unit * World) :
  (handle ended).(self) = (snd ended).(self).
Proof. now destruct ended as [[|] ?]. Qed.

Lemma observed_handle (ended : result unit * World) :
  (handle ended).(observed) = (snd ended).(observed).
Proof. now destruct ended as [[|] ?]. Qed.

Lemma loop_handle (ended : result unit * World) :
  (handle ended).(loop) = (snd ended).(loop).
Proof. now destruct ended as [[|] ?]. Qed.

(** A callable of the loop writes to the state object, the latches and the
    record of the observers' calls; it never clears the discovered latch,
    and the closure of a message sets it. *)
Lemma run_task_frame (t : task) (w : World) :
  exists c' obs',
    snd (run_task t w) = with_observed obs' (with_self c' w)
    /\ same_identity w.(self) c'
    /\ (w.(self).(device_is_discovered) = true -> c'.(device_is_discovered) = true)
    /\ (forall key value, t = message_propagate key value ->
                          c'.(device_is_discovered) = true).
Proof.
  destruct t as [key value|]; cbn [run_task].
  - rewrite on_message_propagate_eq. cbn zeta.
    destruct (propagate_match_frame key value
                (with_self (put_device_is_discovered true (self w)) w))
      as (c' & E & Hid & Hd).
    unfold exec in E.
    destruct (_propagate_match key value _) as [r w2]. cbn in E. subst w2.
    assert (Hid' : same_identity (self w) c').
    { apply same_identity_trans with (2 := Hid). destruct w as [c ? ? ? ? ?], c.
      repeat split. }
    assert (Hd' : device_is_discovered c' = true).
    { rewrite Hd. now destruct w as [c ? ? ? ? ?], c. }
    destruct r as [[|]|e]; cbn.
    + eexists c', _. split; [cbn; reflexivity | auto].
    + exists c', (observed w). split; [now destruct w | auto].
    + exists c', (observed w). split; [now destruct w | auto].
  - rewrite on_disconnect_propagate_eq. cbn zeta.
    eexists _, _. split; [reflexivity|].
    split; [|split].
    + destruct w as [c ? ? ? ? ?], c. repeat split.
    + now destruct w as [c ? ? ? ? ?], c.
    + discriminate.
Qed.

(** A turn of the loop takes the head of the queue and leaves the rest. *)
Lemma run_once_frame (w : World) :
  same_identity w.(self) (run_once w).(self)
  /\ (w.(self).(device_is_discovered) = true ->
      (run_once w).(self).(device_is_discovered) = true)
  /\ (run_once w).(loop) = tl w.(loop)
  /\ (run_once w).(_mqtt_client) = w.(_mqtt_client)
  /\ (run_once w).(executor) = w.(executor).
Proof.
  unfold run_once. destruct (loop w) as [|t rest] eqn:Hl.
  - rewrite Hl. repeat split; auto.
  - destruct (run_task_frame t (with_loop rest w)) as (c' & obs' & E & Hid & Hd & _).
    rewrite self_handle, loop_handle.
    assert (Hm : forall ended, (handle ended).(_mqtt_client) = (snd ended).(_mqtt_client))
      by (now intros [[|] ?]).
    assert (He : forall ended, (handle ended).(executor) = (snd ended).(executor))
      by (now intros [[|] ?]).
    rewrite Hm, He, E. cbn. repeat split; try apply Hid; auto.
Qed.

Lemma run_loop_frame (turns : nat) (w : World) :
  same_identity w.(self) (run_loop turns w).(self)
  /\ (w.(self).(device_is_discovered) = true ->
      (run_loop turns w).(self).(device_is_discovered) = true)
  /\ (run_loop turns w).(loop) = skipn turns w.(loop)
  /\ (run_loop turns w).(_mqtt_client) = w.(_mqtt_client)
  /\ (run_loop turns w).(executor) = w.(executor).
Proof.
  revert w; induction turns as [|n IH]; intros w; cbn [run_loop].
  - repeat split; auto.
  - destruct (run_once_frame w) as (Hid & Hd & Hl & Hm & He).
    destruct (IH (run_once w)) as (Hid' & Hd' & Hl' & Hm' & He').
    split; [eapply same_identity_trans; eassumption|].
    split; [auto|]. split; [|split; congruence].
    rewrite Hl', Hl. destruct (loop w); [now rewrite skipn_nil | reflexivity].
Qed.

(** The loop empties its queue: [async_block_till_done] is done. *)
Lemma async_block_till_done_frame (w : World) :
  same_identity w.(self) (async_block_till_done w).(self)
  /\ (w.(self).(device_is_discovered) = true ->
      (async_block_till_done w).(self).(device_is_discovered) = true)
  /\ (async_block_till_done w).(loop) = []
  /\ (async_block_till_done w).(_mqtt_client) = w.(_mqtt_client)
  /\ (async_block_till_done w).(executor) = w.(executor).
Proof.
  unfold async_block_till_done.
  destruct (run_loop_frame (List.length (loop w)) w) as (Hid & Hd & Hl & Hm & He).
  repeat split; try apply Hid; auto.
  rewrite Hl. apply skipn_all.
Qed.

Lemma on_message_frame (msg : MQTTMessage) (w : World) :
  (exec (_on_message msg) w).(self) = w.(self)
  /\ (exec (_on_message msg) w).(_mqtt_client) = w.(_mqtt_client)
  /\ (exec (_on_message msg) w).(executor) = w.(executor)
  /\ (exec (_on_message msg) w).(observed) = w.(observed).
Proof.
  unfold _on_message. run_monad.
  destruct (Builtins.decode (payload msg)); cbn; auto.
  destruct (topic_text msg); cbn; auto.
  destruct (Text.startswith _ _); cbn; auto.
Qed.

Lemma deliver_frame (msg : MQTTMessage) (w : World) :
  same_identity w.(self) (deliver msg w).(self)
  /\ (deliver msg w).(loop) = []
  /\ (deliver msg w).(_mqtt_client) = w.(_mqtt_client).
Proof.
  unfold deliver.
  destruct (async_block_till_done_frame (exec (_on_message msg) w))
    as (Hid & _ & Hl & Hm & _).
  destruct (on_message_frame msg w) as (Hs & Hm' & _).
  rewrite Hs in Hid. repeat split; try apply Hid; congruence.
Qed.

(** ** The command encoder *)

(** C5.  [set_target_temperature] raises its [ValueError], without a
    publish, exactly when the value is outside 15..26 (so at 14 and at 27);
    for a value inside it publishes the decimal string of the value, and
    nothing else, to the [temperature] topic of the command prefix, with
    the defaults [qos=1], [retain=True].  That string reads back as the
    value. *)
Theorem set_target_temperature_range (temperature : Z) (w : World) :
  (set_target_temperature temperature w
     = (Raise (ValueError "Temperature out of bounds"), w)
   <-> ~ (15 <= temperature <= 26))
  /\ (15 <= temperature <= 26 ->
      set_target_temperature temperature w
      = (Ok tt,
         with__mqtt_client
           (w.(_mqtt_client)
            ++ [mqtt_publish (w.(self).(_apply_state_topic_prefix) ++ "temperature")
                             (Text.str temperature) 1 true]) w)
      /\ Builtins.int (Text.str temperature) = Ok temperature)
  /\ set_target_temperature 14 w = (Raise (ValueError "Temperature out of bounds"), w)
  /\ set_target_temperature 27 w = (Raise (ValueError "Temperature out of bounds"), w).
Proof.
  assert (In_range : 15 <= temperature <= 26 ->
            set_target_temperature temperature w
            = (Ok tt,
               with__mqtt_client
                 (w.(_mqtt_client)
                  ++ [mqtt_publish (w.(self).(_apply_state_topic_prefix) ++ "temperature")
                                   (Text.str temperature) 1 true]) w)).
  { intros H. unfold set_target_temperature, MIN_TEMPERATURE, MAX_TEMPERATURE.
    replace ((15 <=? temperature) && (temperature <=? 26)) with true
      by (symmetry; apply andb_true_iff; split; apply Z.leb_le; lia).
    reflexivity. }
  assert (Out_of_range : ~ (15 <= temperature <= 26) ->
            set_target_temperature temperature w
            = (Raise (ValueError "Temperature out of bounds"), w)).
  { intros H. unfold set_target_temperature, MIN_TEMPERATURE, MAX_TEMPERATURE.
    replace ((15 <=? temperature) && (temperature <=? 26)) with false; [reflexivity|].
    symmetry. apply andb_false_iff.
    destruct (Z.leb_spec 15 temperature); [right; apply Z.leb_gt; lia | now left]. }
  split; [split|split; [|split]].
  - intros E H. rewrite (In_range H) in E. discriminate.
  - exact Out_of_range.
  - intros H. split; [exact (In_range H)|].
    assert (Hc : temperature = 15 \/ temperature = 16 \/ temperature = 17
                 \/ temperature = 18 \/ temperature = 19 \/ temperature = 20
                 \/ temperature = 21 \/ temperature = 22 \/ temperature = 23
                 \/ temperature = 24 \/ temperature = 25 \/ temperature = 26) by lia.
    repeat (destruct Hc as [->|Hc]; [reflexivity|]). now subst.
  - reflexivity.
  - reflexivity.
Qed.


(** C6.  With the preset known to be AWAY or BOOST, [set_fan_mode(MEDIUM)]
    publishes [absent=0], then [party=2], then [fan=2], and nothing else. *)
Theorem set_fan_mode_medium_clears_preset (w : World) :
  w.(self).(state).(preset_mode) = Some AWAY
  \/ w.(self).(state).(preset_mode) = Some BOOST ->
  set_fan_mode MEDIUM w
  = (Ok tt,
     with__mqtt_client
       (w.(_mqtt_client)
        ++ [mqtt_publish (w.(self).(_apply_state_topic_prefix) ++ "absent") "0" 1 true;
            mqtt_publish (w.(self).(_apply_state_topic_prefix) ++ "party") "2" 1 true;
            mqtt_publish (w.(self).(_apply_state_topic_prefix) ++ "fan") "2" 1 true])
       w).
Proof.
  intros H. open_world w.
  destruct H; subst; run_method; reflexivity.
Qed.

(** C7.  [set_preset_mode(m)] when the known preset is already [m] returns
    with nothing published and nothing changed. *)
Theorem set_preset_mode_same (m : PresetMode) (w : World) :
  w.(self).(state).(preset_mode) = Some m ->
  set_preset_mode m w = (Ok tt, w).
Proof.
  intros H. open_world w. subst. now destruct m.
Qed.

(** C10.  While the preset is unknown, [set_fan_mode(speed)] publishes
    [absent=0], then [party=2], and only then the fan speed; and
    [set_preset_mode(HOME)] publishes that pair too: it is not a no-op. *)
Theorem unknown_preset_is_not_home (speed : FanMode) (w : World) :
  w.(self).(state).(preset_mode) = None ->
  set_fan_mode speed w
  = (Ok tt,
     with__mqtt_client
       (w.(_mqtt_client)
        ++ [mqtt_publish (w.(self).(_apply_state_topic_prefix) ++ "absent") "0" 1 true;
            mqtt_publish (w.(self).(_apply_state_topic_prefix) ++ "party") "2" 1 true;
            mqtt_publish (w.(self).(_apply_state_topic_prefix) ++ "fan")
                         (Text.str (FanMode_value speed)) 1 true])
       w)
  /\ set_preset_mode HOME w
     = (Ok tt,
        with__mqtt_client
          (w.(_mqtt_client)
           ++ [mqtt_publish (w.(self).(_apply_state_topic_prefix) ++ "absent") "0" 1 true;
               mqtt_publish (w.(self).(_apply_state_topic_prefix) ++ "party") "2" 1 true])
          w)
  /\ set_preset_mode HOME w <> (Ok tt, w).
Proof.
  intros H.
  assert (E : set_preset_mode HOME w
     = (Ok tt,
        with__mqtt_client
          (w.(_mqtt_client)
           ++ [mqtt_publish (w.(self).(_apply_state_topic_prefix) ++ "absent") "0" 1 true;
               mqtt_publish (w.(self).(_apply_state_topic_prefix) ++ "party") "2" 1 true])
          w)).
  { open_world w. subst. run_method. reflexivity. }
  split; [|split; [exact E|]].
  - clear E. open_world w. subst. destruct speed; run_method; reflexivity.
  - rewrite E. intros Heq. injection Heq as Heq.
    apply (f_equal _mqtt_client) in Heq. cbn in Heq.
    apply (f_equal (@List.length _)) in Heq. rewrite length_app in Heq.
    cbn in Heq. lia.
Qed.


(** ** The topic decoder *)

(** C8.  A message whose topic does not carry the client's state prefix,
    and a message that carries it with a key the [match] has no case for,
    leave every attribute of the Device State as it was and reach no
    observer (and nothing is raised in the loop). *)
Theorem unknown_topic_or_key_changes_nothing (msg : MQTTMessage) (w : World) :
  w.(loop) = [] ->
  Text.startswith msg.(topic) w.(self).(_state_topic_prefix) = false
  \/ (Text.startswith msg.(topic) w.(self).(_state_topic_prefix) = true
      /\ ~ In (Text.slice_from (String.length w.(self).(_state_topic_prefix))
                               msg.(topic))
              decoded_keys) ->
  (deliver msg w).(self).(state) = w.(self).(state)
  /\ (deliver msg w).(observed) = w.(observed)
  /\ (deliver msg w).(loop_exceptions) = w.(loop_exceptions).
Proof.
  intros Hl [H | [H Hkey]].
  - rewrite deliver_ignored by auto. auto.
  - destruct (topic_text_cases msg) as [Ht|Ht];
      [|rewrite deliver_unreadable by assumption; auto].
    destruct (Utf8.code_points msg.(payload)) as [cps|] eqn:Hp.
    + rewrite deliver_ours by (congruence || assumption).
      rewrite on_message_propagate_eq. cbn zeta.
      rewrite propagate_match_unknown by assumption.
      now destruct w as [c m l le ex ob], c.
    + rewrite deliver_ignored by auto. auto.
Qed.

(** A report [status=online] sets both latches and [is_online]. *)
Lemma status_online (w : World) :
  w.(loop) = [] ->
  let w' := deliver (state_message w "status" "online") w in
  w'.(self).(device_is_online) = true
  /\ w'.(self).(device_is_discovered) = true
  /\ w'.(self).(state).(is_online) = true.
Proof.
  intros Hl. cbn zeta.
  rewrite deliver_state_message by (assumption || discriminate).
  rewrite on_message_propagate_eq.
  rewrite self_handle.
  open_world w. run_monad.
  match goal with |- context [negb ?b] => destruct b end; cbn; auto.
Qed.

(** C1.  What the code does where the claim says the online latch is
    cleared: a status report other than "online" sets [is_online] to false
    in the Device State and leaves the online latch as it was, so a latch
    that was set stays set. *)
Theorem status_other_than_online_keeps_online_latch (value : string) (w : World) :
  w.(loop) = [] ->
  Utf8.code_points value <> None ->
  value <> "online" ->
  let w' := deliver (state_message w "status" value) w in
  w'.(self).(state).(is_online) = false
  /\ w'.(self).(device_is_online) = w.(self).(device_is_online).
Proof.
  intros Hl Hp Hv. cbn zeta.
  rewrite deliver_state_message by assumption.
  rewrite on_message_propagate_eq.
  apply String.eqb_neq in Hv. rewrite self_handle.
  open_world w. run_monad. rewrite Hv. cbn. auto.
Qed.

(** A disconnect clears the online latch and [is_online]; it leaves the
    discovered latch as it was. *)
Lemma disconnect_clears_online_keeps_discovered (w : World) :
  w.(loop) = [] ->
  let w' := disconnect w in
  w'.(self).(device_is_online) = false
  /\ w'.(self).(state).(is_online) = false
  /\ w'.(self).(device_is_discovered) = w.(self).(device_is_discovered).
Proof.
  intros Hl. cbn zeta. rewrite disconnect_eq by assumption.
  rewrite on_disconnect_propagate_eq. cbn zeta. rewrite self_handle.
  now open_world w.
Qed.

(** C2.  What the code does on a disconnect: the online latch is cleared,
    [is_online] becomes false, and the observers are called, in order up to
    the first that raises, each with the three arguments
    ["status"], ["offline"] and the Device State, which is not the one
    argument, the Device State, that the declared type of an observer and
    the notification of a message give. *)
Theorem disconnect_notifies_with_three_arguments (w : World) :
  w.(loop) = [] ->
  let w' := disconnect w in
  let args := offline_arguments w'.(self).(state) in
  w'.(self).(device_is_online) = false
  /\ w'.(self).(state).(is_online) = false
  /\ w'.(observed)
     = (w.(observed) ++ calls_of (reached w.(self).(on_state_updated) args) args)%list
  /\ args <> snapshot_arguments w'.(self).(state).
Proof.
  intros Hl. cbn zeta. rewrite disconnect_eq by assumption.
  rewrite on_disconnect_propagate_eq. cbn zeta.
  rewrite self_handle, observed_handle.
  open_world w. repeat split. discriminate.
Qed.


(** C4.  A [party] report sets the preset to BOOST when its payload is "1"
    and to HOME for every other payload; an [absent] report sets it to AWAY
    when its payload is "1" and to HOME for every other payload; and this
    holds whatever message was decoded before, so the latest of the two
    flags decides. *)
Theorem preset_follows_latest_flag (value : string) (w : World) :
  w.(loop) = [] ->
  Utf8.code_points value <> None ->
  (deliver (state_message w "party" value) w).(self).(state).(preset_mode)
    = Some (if value == "1" then BOOST else HOME)
  /\ (deliver (state_message w "absent" value) w).(self).(state).(preset_mode)
    = Some (if value == "1" then AWAY else HOME)
  /\ forall earlier : MQTTMessage,
       let w' := deliver earlier w in
       (deliver (state_message w "party" value) w').(self).(state).(preset_mode)
         = Some (if value == "1" then BOOST else HOME)
       /\ (deliver (state_message w "absent" value) w').(self).(state).(preset_mode)
         = Some (if value == "1" then AWAY else HOME).
Proof.
  assert (Now : forall w : World,
    w.(loop) = [] -> Utf8.code_points value <> None ->
    (deliver (state_message w "party" value) w).(self).(state).(preset_mode)
      = Some (if value == "1" then BOOST else HOME)
    /\ (deliver (state_message w "absent" value) w).(self).(state).(preset_mode)
      = Some (if value == "1" then AWAY else HOME)).
  { clear w. intros w Hl Hp.
    rewrite !deliver_state_message by assumption.
    rewrite !self_handle, !on_message_propagate_eq.
    open_world w. run_monad. destruct (value == "1"); cbn; auto. }
  intros Hl Hp. destruct (Now w Hl Hp) as [Hparty Habsent].
  split; [exact Hparty|]. split; [exact Habsent|].
  intros earlier w'.
  destruct (deliver_frame earlier w) as ((_ & _ & _ & Hprefix & _) & Hl' & _).
  fold w' in Hprefix, Hl'.
  replace (state_message w "party" value) with (state_message w' "party" value)
    by (unfold state_message; now rewrite Hprefix).
  replace (state_message w "absent" value) with (state_message w' "absent" value)
    by (unfold state_message; now rewrite Hprefix).
  apply Now; assumption.
Qed.

Lemma step_keeps_discovered (o : operation) (w : World) :
  w.(self).(device_is_discovered) = true ->
  (step o w).(self).(device_is_discovered) = true.
Proof.
  intros H.
  destruct o as [ | | t | t p q r | t | s | k v | m | c | rc | msg | | | ];
    cbn [step].
  1-10, 12-13:
    open_world w; subst;
    repeat match goal with
           | x : PresetMode |- _ => destruct x
           | x : FanMode |- _ => destruct x
           | x : option PresetMode |- _ => destruct x
           end;
    unfold connect, configure_tls, _configure_insecure_tls,
      _configure_secure_tls, stop, on_state_updated_append, _on_connect,
      _on_disconnect, _on_connect_fail;
    run_monad; split_cases; reflexivity.
  - destruct (on_message_frame msg w) as (Hs & _). now rewrite Hs.
  - now apply run_once_frame.
Qed.

Lemma run_keeps_discovered (ops : list operation) (w : World) :
  w.(self).(device_is_discovered) = true ->
  (run ops w).(self).(device_is_discovered) = true.
Proof.
  revert w; induction ops as [|o ops IH]; intros w H; cbn; [assumption|].
  apply IH. now apply step_keeps_discovered.
Qed.

(** C9.  A decoded message, one whose payload and whose topic both decode,
    with a topic that carries the client's state prefix sets the discovered
    latch, whatever its key and payload; after that the latch stays set
    through every sequence of operations of the client, messages, turns of
    the loop and a disconnect among them. *)
Theorem discovered_latch_set_once_and_for_all
  (msg : MQTTMessage) (text : string) (ops : list operation) (w : World) :
  w.(loop) = [] ->
  Utf8.code_points msg.(payload) <> None ->
  topic_text msg = Ok text ->
  Text.startswith text w.(self).(_state_topic_prefix) = true ->
  (deliver msg w).(self).(device_is_discovered) = true
  /\ (run ops (deliver msg w)).(self).(device_is_discovered) = true
  /\ (disconnect (deliver msg w)).(self).(device_is_discovered) = true.
Proof.
  intros Hl Hp Ht H.
  pose proof (topic_text_ok msg text Ht) as ->.
  assert (D : (deliver msg w).(self).(device_is_discovered) = true).
  { rewrite deliver_ours by assumption. rewrite self_handle.
    destruct (run_task_frame
                (message_propagate
                   (Text.slice_from (String.length w.(self).(_state_topic_prefix))
                                    msg.(topic))
                   msg.(payload)) w) as (c' & obs' & E & _ & _ & Hd).
    cbn [run_task] in E. rewrite E. cbn. eapply Hd. reflexivity. }
  split; [exact D|]. split; [now apply run_keeps_discovered|].
  destruct (deliver_frame msg w) as (_ & Hl' & _).
  destruct (disconnect_clears_online_keeps_discovered (deliver msg w) Hl')
    as (_ & _ & E).
  now rewrite E.
Qed.


(** ** The Device State does not depend on who observes it *)

Lemma propagate_match_same_state (key value : string) (w1 w2 : World) :
  w1.(self).(state) = w2.(self).(state) ->
  (exec (_propagate_match key value) w1).(self).(state)
  = (exec (_propagate_match key value) w2).(self).(state).
Proof.
  intros H. open_world w1. open_world w2. injection H as -> -> -> -> -> -> -> -> -> ->.
  unfold _propagate_match. split_cases; reflexivity.
Qed.

Lemma run_task_same_state (t : task) (w1 w2 : World) :
  w1.(self).(state) = w2.(self).(state) ->
  (handle (run_task t w1)).(self).(state) = (handle (run_task t w2)).(self).(state).
Proof.
  intros H. rewrite !self_handle. destruct t as [key value|]; cbn [run_task].
  - rewrite !on_message_propagate_eq. cbn zeta.
    pose proof (propagate_match_same_state key value
                  (with_self (put_device_is_discovered true (self w1)) w1)
                  (with_self (put_device_is_discovered true (self w2)) w2)) as E.
    unfold exec in E.
    destruct (_propagate_match key value (with_self _ w1)) as [[[|]|?] u1];
      destruct (_propagate_match key value (with_self _ w2)) as [[[|]|?] u2];
      cbn in *; apply E; now destruct w1 as [[] ? ? ? ? ?], w2 as [[] ? ? ? ? ?].
  - rewrite !on_disconnect_propagate_eq. cbn. now rewrite H.
Qed.

Lemma run_once_same_state (w1 w2 : World) :
  same_state w1 w2 -> same_state (run_once w1) (run_once w2).
Proof.
  intros [Hs Hl]. unfold same_state.
  destruct (run_once_frame w1) as (_ & _ & L1 & _).
  destruct (run_once_frame w2) as (_ & _ & L2 & _).
  split; [|congruence].
  unfold run_once. rewrite <- Hl. destruct (loop w1) as [|t rest]; [assumption|].
  now apply run_task_same_state.
Qed.

Lemma run_loop_same_state (turns : nat) (w1 w2 : World) :
  same_state w1 w2 -> same_state (run_loop turns w1) (run_loop turns w2).
Proof.
  revert w1 w2; induction turns as [|n IH]; intros w1 w2 H; cbn; [assumption|].
  now apply IH, run_once_same_state.
Qed.

Lemma async_block_till_done_same_state (w1 w2 : World) :
  same_state w1 w2 ->
  same_state (async_block_till_done w1) (async_block_till_done w2).
Proof.
  intros H. unfold async_block_till_done. rewrite <- (proj2 H).
  now apply run_loop_same_state.
Qed.

Lemma on_message_same_state (key value : string) (w1 w2 : World) :
  same_state w1 w2 ->
  same_state (exec (_on_message (state_message w1 key value)) w1)
             (exec (_on_message (state_message w2 key value)) w2).
Proof.
  intros [Hs Hl]. unfold exec.
  destruct (Utf8.code_points value) as [cps|] eqn:Hp.
  - rewrite !on_message_state_message by congruence. cbn.
    split; cbn; congruence.
  - rewrite !on_message_undecodable by assumption. now split.
Qed.

Lemma apply_state_messages_same_state (states : list (string * string))
  (w1 w2 : World) :
  same_state w1 w2 ->
  same_state (apply_state_messages states w1) (apply_state_messages states w2).
Proof.
  revert w1 w2; induction states as [|[key value] rest IH]; intros w1 w2 H; cbn.
  - now apply async_block_till_done_same_state.
  - now apply IH, on_message_same_state.
Qed.

Lemma decode_each_same_state (states : list (string * string)) (w1 w2 : World) :
  same_state w1 w2 ->
  same_state (decode_each states w1) (decode_each states w2).
Proof.
  unfold decode_each.
  revert w1 w2; induction states as [|[key value] rest IH]; intros w1 w2 H; cbn;
    [assumption|].
  apply IH. unfold deliver.
  now apply async_block_till_done_same_state, on_message_same_state.
Qed.

(** C3.  From the empty Device State, decoding [status=online], [fan=2],
    [party=0], [absent=0], [textr=18], [texauh=19], [tsupl=20], [tout=21],
    [overheating=22], [he=1] in this order leaves the state of the scenario,
    whether the loop runs after each message or once after all of them. *)
Theorem end_to_end_scenario (w : World) :
  w.(self).(state) = EnsyState_default ->
  w.(loop) = [] ->
  let final :=
    {| is_heating := Some true;
       is_online := true;
       fan_mode := Some MEDIUM;
       preset_mode := Some HOME;
       temperature_exhaust := Some 19;
       temperature_extract := Some 18;
       temperature_heater := Some 22;
       temperature_outside := Some 21;
       temperature_supply := Some 20;
       temperature_target := None |} in
  (decode_each scenario w).(self).(state) = final
  /\ (apply_state_messages scenario w).(self).(state) = final.
Proof.
  intros Hs Hl final.
  assert (H : same_state w (__init__ "" false)) by (split; assumption).
  split.
  - rewrite (proj1 (decode_each_same_state scenario _ _ H)). reflexivity.
  - rewrite (proj1 (apply_state_messages_same_state scenario _ _ H)). reflexivity.
Qed.

Ltac open_arguments :=
  repeat match goal with
         | x : PresetMode |- _ => destruct x
         | x : FanMode |- _ => destruct x
         | x : option PresetMode |- _ => destruct x
         end.

Ltac unfold_operations :=
  unfold connect, configure_tls, _configure_insecure_tls,
    _configure_secure_tls, stop, on_state_updated_append, _on_connect,
    _on_disconnect, _on_connect_fail.

Lemma loop_exceptions_handle (ended : result unit * World) :
  (handle ended).(loop_exceptions)
  = ((snd ended).(loop_exceptions) ++ caught (fst ended))%list.
Proof. destruct ended as [[|] ?]; cbn; [now rewrite app_nil_r | reflexivity]. Qed.

(** X1.  A report on one of the six numeric keys whose payload [int] reads
    as [n] assigns [n] to the attribute of that key and to no other; then
    the observers are called in the order they registered, each with the
    new state, up to the first that raises, and what that one raises goes
    to the loop's handler.  The assignment stands either way. *)
Theorem numeric_report_decoded
  (key : string) (put : option Z -> EnsyState -> EnsyState)
  (value : string) (n : Z) (w : World) :
  In (key, put) numeric_fields ->
  w.(loop) = [] ->
  Utf8.code_points value <> None ->
  Builtins.int value = Ok n ->
  let w' := deliver (state_message w key value) w in
  let args := snapshot_arguments w'.(self).(state) in
  w'.(self).(state) = put (Some n) w.(self).(state)
  /\ w'.(observed)
     = (w.(observed) ++ calls_of (reached w.(self).(on_state_updated) args) args)%list
  /\ w'.(loop_exceptions)
     = (w.(loop_exceptions) ++ caught (notified w.(self).(on_state_updated) args))%list.
Proof.
  intros Hin Hl Hp Hint. cbn zeta.
  rewrite deliver_state_message by assumption.
  rewrite self_handle, observed_handle, loop_exceptions_handle.
  rewrite on_message_propagate_eq.
  cbn in Hin.
  repeat (destruct Hin as [Hin|Hin];
          [injection Hin as <- <-; open_world w; run_monad; rewrite Hint; cbn;
           repeat split |]).
  contradiction.
Qed.


(** X2.  A report on one of the six numeric keys whose payload [int]
    rejects raises in the loop: the Device State and the online latch stay
    as they were and no observer is called, the exception is handed to the
    loop's handler, and the discovered latch is set all the same. *)
Theorem numeric_report_malformed
  (key : string) (put : option Z -> EnsyState -> EnsyState)
  (value : string) (e : exn) (w : World) :
  In (key, put) numeric_fields ->
  w.(loop) = [] ->
  Utf8.code_points value <> None ->
  Builtins.int value = Raise e ->
  let w' := deliver (state_message w key value) w in
  w'.(self).(state) = w.(self).(state)
  /\ w'.(self).(device_is_online) = w.(self).(device_is_online)
  /\ w'.(self).(device_is_discovered) = true
  /\ w'.(observed) = w.(observed)
  /\ w'.(loop_exceptions) = (w.(loop_exceptions) ++ [e])%list.
Proof.
  intros Hin Hl Hp Hint. cbn zeta.
  rewrite deliver_state_message by assumption.
  rewrite self_handle, observed_handle, loop_exceptions_handle.
  rewrite on_message_propagate_eq.
  cbn in Hin.
  repeat (destruct Hin as [Hin|Hin];
          [injection Hin as <- <-; open_world w; run_monad; rewrite Hint; cbn;
           repeat split |]).
  contradiction.
Qed.

(** X3.  A [fan] report of "1", "2" or "3" sets the fan mode to LOW, MEDIUM
    or HIGH and changes nothing else of the state; every other payload is
    passed over in silence: no change, no observer called, nothing raised. *)
Theorem fan_report (value : string) (w : World) :
  w.(loop) = [] ->
  Utf8.code_points value <> None ->
  let w' := deliver (state_message w "fan" value) w in
  (value = "1" -> w'.(self).(state) = put_fan_mode (Some LOW) w.(self).(state))
  /\ (value = "2" -> w'.(self).(state) = put_fan_mode (Some MEDIUM) w.(self).(state))
  /\ (value = "3" -> w'.(self).(state) = put_fan_mode (Some HIGH) w.(self).(state))
  /\ (~ In value ["1"; "2"; "3"] ->
      w'.(self).(state) = w.(self).(state)
      /\ w'.(observed) = w.(observed)
      /\ w'.(loop_exceptions) = w.(loop_exceptions)).
Proof.
  intros Hl Hp. cbn zeta.
  rewrite deliver_state_message by assumption.
  rewrite self_handle, observed_handle, loop_exceptions_handle.
  rewrite on_message_propagate_eq.
  split; [|split; [|split]].
  1-3: intros ->; open_world w; reflexivity.
  intros Hv.
  assert (Hm : Text.mem value ["1"; "2"; "3"] = false).
  { destruct (Text.mem value ["1"; "2"; "3"]) eqn:E; [|reflexivity].
    unfold Text.mem in E. apply existsb_exists in E.
    destruct E as (y & Hy & E). apply String.eqb_eq in E. now subst. }
  open_world w. unfold _propagate_match. cbn. rewrite Hm. cbn.
  rewrite ?app_nil_r. repeat split.
Qed.

(** X4.  A [he] report sets [is_heating] to whether the payload is "1",
    so it is never left unknown and the decoder raises for no payload; only
    an observer can raise here. *)
Theorem heating_report (value : string) (w : World) :
  w.(loop) = [] ->
  Utf8.code_points value <> None ->
  let w' := deliver (state_message w "he" value) w in
  let args := snapshot_arguments w'.(self).(state) in
  w'.(self).(state) = put_is_heating (Some (value == "1")) w.(self).(state)
  /\ w'.(loop_exceptions)
     = (w.(loop_exceptions) ++ caught (notified w.(self).(on_state_updated) args))%list.
Proof.
  intros Hl Hp. cbn zeta.
  rewrite deliver_state_message by assumption.
  rewrite self_handle, loop_exceptions_handle, on_message_propagate_eq.
  open_world w. split; reflexivity.
Qed.


(** ** Commands and the reports that answer them *)

(** X5.  The last publish of [set_fan_mode(speed)] goes to the [fan]
    command topic, and its payload, reported back by the device on the
    [fan] state topic, decodes to that very speed. *)
Theorem set_fan_mode_round_trip (speed : FanMode) (w : World) :
  w.(loop) = [] ->
  exists (value : string) (clearing : list (string * string)),
    publishes (exec (set_fan_mode speed) w).(_mqtt_client)
    = (publishes w.(_mqtt_client) ++ clearing
       ++ command_publishes_names w [("fan", value)])%list
    /\ (deliver (state_message w "fan" value) w).(self).(state).(fan_mode)
       = Some speed.
Proof.
  intros Hl. exists (Text.str (FanMode_value speed)).
  exists (if preset_eqb w.(self).(state).(preset_mode) (Some HOME) then []
          else command_publishes_names w (preset_commands HOME)).
  split.
  - unfold publishes. open_world w.
    open_arguments; run_method; rewrite flat_map_app; reflexivity.
  - rewrite deliver_state_message
      by (assumption || (destruct speed; discriminate)).
    rewrite self_handle, on_message_propagate_eq.
    open_world w. now destruct speed.
Qed.

(** X6.  For a temperature in 15..26, [set_target_temperature] publishes
    one payload to the [temperature] command topic, and that payload,
    reported back on the [temperature] state topic, decodes to the
    temperature that was set. *)
Theorem set_target_temperature_round_trip (temperature : Z) (w : World) :
  w.(loop) = [] ->
  15 <= temperature <= 26 ->
  exists value : string,
    publishes (exec (set_target_temperature temperature) w).(_mqtt_client)
    = (publishes w.(_mqtt_client)
       ++ command_publishes_names w [("temperature", value)])%list
    /\ (deliver (state_message w "temperature" value) w)
         .(self).(state).(temperature_target) = Some temperature.
Proof.
  intros Hl H. exists (Text.str temperature).
  assert (Hc : temperature = 15 \/ temperature = 16 \/ temperature = 17
               \/ temperature = 18 \/ temperature = 19 \/ temperature = 20
               \/ temperature = 21 \/ temperature = 22 \/ temperature = 23
               \/ temperature = 24 \/ temperature = 25 \/ temperature = 26) by lia.
  split.
  - unfold publishes.
    repeat (destruct Hc as [->|Hc]; [run_method; now rewrite flat_map_app|]).
    subst. run_method. now rewrite flat_map_app.
  - assert (Hp : Utf8.code_points (Text.str temperature) <> None)
      by (repeat (destruct Hc as [->|Hc]; [discriminate|]); subst; discriminate).
    rewrite deliver_state_message by assumption.
    rewrite self_handle, on_message_propagate_eq.
    open_world w.
    repeat (destruct Hc as [->|Hc]; [reflexivity|]). now subst.
Qed.

(** X7.  When the known preset is not [m], [set_preset_mode(m)] publishes
    the commands of [m] and nothing else; and those keys and payloads,
    reported back in the same order on the state topics, decode to the
    preset [m]. *)
Theorem set_preset_mode_round_trip (m : PresetMode) (w : World) :
  w.(loop) = [] ->
  w.(self).(state).(preset_mode) <> Some m ->
  set_preset_mode m w
  = (Ok tt,
     with__mqtt_client (w.(_mqtt_client) ++ command_publishes w (preset_commands m)) w)
  /\ (decode_each (preset_commands m) w).(self).(state).(preset_mode) = Some m.
Proof.
  intros Hl Hm. split.
  - open_world w. open_arguments; try contradiction; run_method; reflexivity.
  - destruct m; unfold decode_each; cbn [preset_commands fold_left fst snd].
    + set (w1 := deliver (state_message w "absent" "0") w).
      destruct (deliver_frame (state_message w "absent" "0") w)
        as ((_ & _ & _ & Hprefix & _) & Hl1 & _). fold w1 in Hprefix, Hl1.
      rewrite deliver_state_message by (assumption || discriminate).
      rewrite self_handle, on_message_propagate_eq.
      open_world w1. reflexivity.
    + rewrite deliver_state_message by (assumption || discriminate).
      rewrite self_handle, on_message_propagate_eq.
      open_world w. reflexivity.
    + rewrite deliver_state_message by (assumption || discriminate).
      rewrite self_handle, on_message_propagate_eq.
      open_world w. reflexivity.
Qed.


(** ** What each operation leaves alone *)

Lemma step_outside_the_loop (o : operation) (w : World) :
  o <> op_loop_turn ->
  (step o w).(self).(state) = w.(self).(state)
  /\ (step o w).(self).(device_is_online) = w.(self).(device_is_online)
  /\ (step o w).(self).(device_is_discovered) = w.(self).(device_is_discovered)
  /\ (step o w).(observed) = w.(observed)
  /\ (step o w).(loop_exceptions) = w.(loop_exceptions).
Proof.
  intros Ho.
  destruct o as [ | | t | t p q r | t | s | k v | m | c | rc | msg | | | ];
    cbn [step]; try contradiction.
  1-10, 12-13:
    open_world w; open_arguments; unfold_operations;
    run_monad; split_cases; repeat split.
  unfold _on_message. run_monad.
  destruct (Builtins.decode (payload msg)); cbn; auto.
  destruct (topic_text msg); cbn; auto.
  destruct (Text.startswith _ _); cbn; auto.
Qed.

(** X8.  Only a turn of the host's loop writes the Device State or a
    latch, calls an observer or records an exception: every method and every
    transport callback leaves them as they are.  So a command does not
    change the known state before the device reports back. *)
Theorem only_the_loop_writes_the_state (o : operation) (w : World) :
  o <> op_loop_turn ->
  (step o w).(self).(state) = w.(self).(state)
  /\ (step o w).(self).(device_is_online) = w.(self).(device_is_online)
  /\ (step o w).(self).(device_is_discovered) = w.(self).(device_is_discovered)
  /\ (step o w).(observed) = w.(observed)
  /\ (step o w).(loop_exceptions) = w.(loop_exceptions).
Proof. exact (step_outside_the_loop o w). Qed.

(** X9.  Each of [set_target_temperature], [set_fan_mode], [apply_state]
    and [set_preset_mode] does nothing but publish: every call it makes of
    the transport is a publish to a topic under the command prefix, with
    [qos=1] and [retain=True], and nothing else of the world changes. *)
Theorem encoder_publishes_under_the_command_prefix (o : operation) (w : World) :
  (exists t, o = op_set_target_temperature t)
  \/ (exists s, o = op_set_fan_mode s)
  \/ (exists k v, o = op_apply_state k v)
  \/ (exists m, o = op_set_preset_mode m) ->
  exists commands : list (string * string),
    step o w
    = with__mqtt_client (w.(_mqtt_client) ++ command_publishes w commands) w.
Proof.
  intros [[t ->] | [[s ->] | [(k & v & ->) | [m ->]]]]; cbn [step].
  - destruct (negb ((MIN_TEMPERATURE <=? t) && (t <=? MAX_TEMPERATURE))) eqn:E.
    + exists []. unfold exec, set_target_temperature. rewrite E.
      open_world w. cbn. now rewrite app_nil_r.
    + exists [("temperature", Text.str t)].
      unfold exec, set_target_temperature. rewrite E. reflexivity.
  - exists ((if preset_eqb w.(self).(state).(preset_mode) (Some HOME) then []
            else preset_commands HOME) ++ [("fan", Text.str (FanMode_value s))])%list.
    open_world w. open_arguments; run_method; reflexivity.
  - exists [(k, v)]. reflexivity.
  - exists (if preset_eqb (Some m) w.(self).(state).(preset_mode) then []
           else preset_commands m).
    open_world w. open_arguments; run_method; rewrite ?app_nil_r; reflexivity.
Qed.

Lemma keeps_known_refl (st : EnsyState) : keeps_known st st.
Proof. unfold keeps_known, known_fields. repeat constructor; auto. Qed.

Lemma keeps_known_trans (a b c : EnsyState) :
  keeps_known a b -> keeps_known b c -> keeps_known a c.
Proof.
  unfold keeps_known, known_fields. intros H1 H2.
  repeat match goal with
         | H : Forall2 _ (_ :: _) (_ :: _) |- _ =>
             apply Forall2_cons_iff in H; destruct H
         end.
  repeat constructor; auto.
Qed.

Lemma propagate_match_keeps_known (key value : string) (w : World) :
  keeps_known w.(self).(state) (exec (_propagate_match key value) w).(self).(state).
Proof.
  open_world w. unfold _propagate_match. split_cases;
    unfold keeps_known, known_fields; cbn; repeat constructor; auto.
Qed.

Lemma run_once_keeps_known (w : World) :
  keeps_known w.(self).(state) (run_once w).(self).(state).
Proof.
  unfold run_once. destruct (loop w) as [|t rest]; [apply keeps_known_refl|].
  rewrite self_handle. destruct t as [key value|]; cbn [run_task].
  - rewrite on_message_propagate_eq. cbn zeta.
    pose proof (propagate_match_keeps_known key value
                  (with_self (put_device_is_discovered true
                                (self (with_loop rest w))) (with_loop rest w))) as H.
    unfold exec in H.
    destruct (_propagate_match key value _) as [[[|]|e] w2]; cbn in *;
      (eapply keeps_known_trans; [|exact H]);
      destruct w as [[] ? ? ? ? ?]; apply keeps_known_refl.
  - rewrite on_disconnect_propagate_eq. cbn.
    destruct w as [[? ? ? ? ? ? ? []] ? ? ? ? ?].
    unfold keeps_known, known_fields; cbn; repeat constructor; auto.
Qed.

(** X10.  Through every sequence of operations, an attribute of the Device
    State that is known stays known: nothing resets one to [None]. *)
Theorem known_stays_known (ops : list operation) (w : World) :
  keeps_known w.(self).(state) (run ops w).(self).(state).
Proof.
  revert w; induction ops as [|o ops IH]; intros w; cbn; [apply keeps_known_refl|].
  eapply keeps_known_trans; [|apply IH].
  destruct o;
    try (match goal with
         | |- context [step ?o w] =>
             assert (Ho : o <> op_loop_turn) by discriminate;
             destruct (step_outside_the_loop o w Ho) as (E & _);
             rewrite E; apply keeps_known_refl
         end).
  apply run_once_keeps_known.
Qed.


(** ** The order of the loop *)

Lemma propagate_match_with_loop (key value : string) (l : list task) (w : World) :
  _propagate_match key value (with_loop l w)
  = (fst (_propagate_match key value w),
     with_loop l (snd (_propagate_match key value w))).
Proof.
  destruct w as [c ? ? ? ? ?]. unfold _propagate_match.
  split_cases; reflexivity.
Qed.

Lemma run_task_with_loop (t : task) (l : list task) (w : World) :
  run_task t (with_loop l w)
  = (fst (run_task t w), with_loop l (snd (run_task t w))).
Proof.
  destruct t as [key value|]; cbn [run_task].
  - rewrite !on_message_propagate_eq. cbn zeta.
    change (with_self (put_device_is_discovered true (self (with_loop l w)))
                      (with_loop l w))
      with (with_loop l (with_self (put_device_is_discovered true (self w)) w)).
    rewrite propagate_match_with_loop.
    destruct (_propagate_match key value _) as [[[|]|e] w2]; reflexivity.
  - rewrite !on_disconnect_propagate_eq. reflexivity.
Qed.

Lemma handle_with_loop (r : result unit) (l : list task) (w : World) :
  handle (r, with_loop l w) = with_loop l (handle (r, w)).
Proof. now destruct r. Qed.

Lemma loop_after_task (t : task) (w : World) :
  (handle (run_task t w)).(loop) = w.(loop).
Proof.
  rewrite loop_handle.
  destruct (run_task_frame t w) as (c' & obs' & E & _). now rewrite E.
Qed.

Lemma with_loop_nil (w : World) : w.(loop) = [] -> with_loop [] w = w.
Proof. intros H. destruct w; cbn in *; now subst. Qed.

Lemma run_loop_queue (ts : list task) (w : World) :
  w.(loop) = [] ->
  run_loop (List.length ts) (with_loop ts w) = run_queue ts w.
Proof.
  revert w; induction ts as [|t ts IH]; intros w Hl; cbn.
  - now apply with_loop_nil.
  - unfold run_once. cbn.
    change (with_loop ts (with_loop (t :: ts) w)) with (with_loop ts w).
    rewrite run_task_with_loop.
    destruct (run_task t w) as [r w1] eqn:E. cbn [fst snd].
    rewrite handle_with_loop. unfold run_queue in *. apply IH.
    pose proof (loop_after_task t w) as L. rewrite E in L. congruence.
Qed.

Lemma loop_after_queue (ts : list task) (w : World) :
  (run_queue ts w).(loop) = w.(loop).
Proof.
  unfold run_queue. revert w; induction ts as [|t ts IH]; intros w; cbn;
    [reflexivity|].
  rewrite IH. apply loop_after_task.
Qed.

Lemma apply_state_messages_queue (states : list (string * string)) (w : World) :
  apply_state_messages states w
  = async_block_till_done (with_loop (w.(loop) ++ tasks_of states) w).
Proof.
  revert w; induction states as [|[key value] rest IH]; intros w; cbn.
  - rewrite app_nil_r. f_equal. now destruct w.
  - rewrite IH. unfold exec.
    destruct (Utf8.code_points value) as [cps|] eqn:Hp.
    + rewrite on_message_state_message by congruence. cbn.
      now rewrite <- app_assoc.
    + rewrite on_message_undecodable by assumption. reflexivity.
Qed.

Lemma decode_each_queue (states : list (string * string)) (w : World) :
  w.(loop) = [] ->
  decode_each states w = run_queue (tasks_of states) w.
Proof.
  unfold decode_each, run_queue.
  revert w; induction states as [|[key value] rest IH]; intros w Hl; cbn;
    [reflexivity|].
  unfold tasks_of. cbn [flat_map fst snd].
  destruct (Utf8.code_points value) as [cps|] eqn:Hp.
  - rewrite deliver_state_message by congruence. cbn [app fold_left].
    apply IH.
    rewrite loop_after_task. exact Hl.
  - rewrite deliver_ignored by auto. cbn [app]. now apply IH.
Qed.

(** X11.  With nothing else queued, handing all the messages to
    [_on_message] and running the loop once leaves the same world as running
    the loop after each message: the closures run in the order of arrival,
    and an exception in one does not stop the ones after it. *)
Theorem batching_does_not_matter (states : list (string * string)) (w : World) :
  w.(loop) = [] ->
  apply_state_messages states w = decode_each states w.
Proof.
  intros Hl. rewrite apply_state_messages_queue, decode_each_queue by assumption.
  rewrite Hl. cbn. unfold async_block_till_done. cbn.
  now apply run_loop_queue.
Qed.


(** ** Notification *)

Lemma reached_all (callbacks : list observer) (args : list pyval) :
  (forall callback, In callback callbacks -> callback.(obs_call) args = None) ->
  reached callbacks args = callbacks /\ notified callbacks args = Ok tt.
Proof.
  induction callbacks as [|c rest IH]; intros H; cbn; [now split|].
  rewrite (H c) by now left.
  destruct IH as [IH1 IH2]; [intros; apply H; now right|].
  now rewrite IH1, IH2.
Qed.

(** X12.  A message causes at most one round of notification.  The round
    calls the observers in the order they registered, each with the state
    as the message left it, and ends at the first observer that raises;
    when none raises, every observer is called exactly once. *)
Theorem one_round_of_notification (msg : MQTTMessage) (w : World) :
  w.(loop) = [] ->
  let w' := deliver msg w in
  let args := snapshot_arguments w'.(self).(state) in
  let callbacks := w.(self).(on_state_updated) in
  (w'.(observed) = w.(observed)
   \/ w'.(observed) = (w.(observed) ++ calls_of (reached callbacks args) args)%list)
  /\ ((forall callback, In callback callbacks -> callback.(obs_call) args = None) ->
      w'.(observed) = w.(observed)
      \/ w'.(observed) = (w.(observed) ++ calls_of callbacks args)%list).
Proof.
  intros Hl w' args callbacks.
  assert (H : w'.(observed) = w.(observed)
              \/ w'.(observed)
                 = (w.(observed) ++ calls_of (reached callbacks args) args)%list).
  { subst w' args callbacks.
    destruct (Utf8.code_points msg.(payload)) as [cps|] eqn:Hp;
      [|rewrite deliver_ignored by auto; now left].
    destruct (Text.startswith msg.(topic) w.(self).(_state_topic_prefix)) eqn:Ht;
      [|rewrite deliver_ignored by auto; now left].
    destruct (topic_text_cases msg) as [Hr|Hr];
      [|rewrite deliver_unreadable by assumption; now left].
    rewrite deliver_ours by (congruence || assumption).
    rewrite observed_handle, self_handle, on_message_propagate_eq. cbn zeta.
    destruct (propagate_match_frame
                (Text.slice_from (String.length w.(self).(_state_topic_prefix))
                                 msg.(topic))
                msg.(payload)
                (with_self (put_device_is_discovered true (self w)) w))
      as (c' & E & (Hobs & _) & _).
    unfold exec in E.
    destruct (_propagate_match _ _ _) as [[[|]|e] w2]; cbn in E; subst w2; cbn.
    - right. rewrite Hobs. now destruct w as [[] ? ? ? ? ?].
    - now left.
    - now left. }
  split; [exact H|].
  intros Hall. destruct (reached_all callbacks args Hall) as [E _].
  now rewrite E in H.
Qed.

(** ** What never changes *)

Lemma step_identity (o : operation) (w : World) :
  (step o w).(self).(mac_address) = w.(self).(mac_address)
  /\ (step o w).(self).(_state_topic_prefix) = w.(self).(_state_topic_prefix)
  /\ (step o w).(self).(_apply_state_topic_prefix)
     = w.(self).(_apply_state_topic_prefix)
  /\ (step o w).(self).(allow_insecure_tls) = w.(self).(allow_insecure_tls)
  /\ exists added, (step o w).(self).(on_state_updated)
                   = (w.(self).(on_state_updated) ++ added)%list.
Proof.
  destruct o as [ | | t | t p q r | t | s | k v | m | c | rc | msg | | | ];
    cbn [step].
  1-8, 10, 12-13:
    open_world w; open_arguments; unfold_operations;
    run_monad; split_cases;
    (split; [|split; [|split; [|split]]]); try reflexivity;
    exists []; now rewrite app_nil_r.
  - open_world w. (split; [|split; [|split; [|split]]]); try reflexivity.
    now exists [c].
  - destruct (on_message_frame msg w) as (E & _). rewrite E.
    (split; [|split; [|split; [|split]]]); try reflexivity.
    exists []. now rewrite app_nil_r.
  - destruct (run_once_frame w) as ((H1 & H2 & H3 & H4 & H5) & _).
    (split; [|split; [|split; [|split]]]); try assumption.
    exists []. now rewrite app_nil_r.
Qed.

Lemma run_identity (ops : list operation) (w : World) :
  (run ops w).(self).(mac_address) = w.(self).(mac_address)
  /\ (run ops w).(self).(_state_topic_prefix) = w.(self).(_state_topic_prefix)
  /\ (run ops w).(self).(_apply_state_topic_prefix)
     = w.(self).(_apply_state_topic_prefix)
  /\ (run ops w).(self).(allow_insecure_tls) = w.(self).(allow_insecure_tls)
  /\ exists added, (run ops w).(self).(on_state_updated)
                   = (w.(self).(on_state_updated) ++ added)%list.
Proof.
  revert w; induction ops as [|o ops IH]; intros w.
  - (split; [|split; [|split; [|split]]]); try reflexivity.
    exists []. now rewrite app_nil_r.
  - change (run (o :: ops) w) with (run ops (step o w)).
    destruct (IH (step o w)) as (A1 & A2 & A3 & A4 & added & A5).
    destruct (step_identity o w) as (B1 & B2 & B3 & B4 & added' & B5).
    (split; [|split; [|split; [|split]]]); try congruence.
    exists (added' ++ added)%list. rewrite A5, B5. now rewrite app_assoc.
Qed.

(** X13.  Through every sequence of operations the address, both topic
    prefixes and the TLS mode of a client stay as they are, and the list of
    observers only grows at its end. *)
Theorem address_topics_and_observers_are_kept (ops : list operation) (w : World) :
  (run ops w).(self).(mac_address) = w.(self).(mac_address)
  /\ (run ops w).(self).(_state_topic_prefix) = w.(self).(_state_topic_prefix)
  /\ (run ops w).(self).(_apply_state_topic_prefix)
     = w.(self).(_apply_state_topic_prefix)
  /\ (run ops w).(self).(allow_insecure_tls) = w.(self).(allow_insecure_tls)
  /\ exists added, (run ops w).(self).(on_state_updated)
                   = (w.(self).(on_state_updated) ++ added)%list.
Proof. exact (run_identity ops w). Qed.


(** ** The topics of a client *)

Lemma append_assoc (a b c : string) : ((a ++ b) ++ c = a ++ (b ++ c))%string.
Proof. induction a as [|x a IH]; cbn; [reflexivity | now rewrite IH]. Qed.

Lemma startswith_common (p a b : string) :
  Text.startswith (p ++ a) (p ++ b) = Text.startswith a b.
Proof.
  induction p as [|x p IH]; cbn; [reflexivity|].
  now rewrite Ascii.eqb_refl, IH.
Qed.

Lemma command_topic_is_not_a_state_topic (mac key : string) :
  Text.startswith (("units/" ++ mac ++ "/app/") ++ key)
                  ("units/" ++ mac ++ "/unit/") = false.
Proof.
  rewrite !append_assoc.
  rewrite (startswith_common "units/"), (startswith_common mac).
  reflexivity.
Qed.

(** X14.  A client, whatever happened to it since it was made, takes no
    message on one of its own command topics for a report of the device:
    [_on_message] queues nothing for it and changes nothing. *)
Theorem own_commands_are_not_decoded
  (mac : string) (insecure : bool) (ops : list operation)
  (key value : string) :
  let w := run ops (__init__ mac insecure) in
  exec (_on_message
          {| topic := w.(self).(_apply_state_topic_prefix) ++ key;
             payload := value |}) w = w.
Proof.
  intros w. apply on_message_foreign. cbn [topic].
  destruct (run_identity ops (__init__ mac insecure)) as (_ & Hs & Ha & _).
  fold w in Hs, Ha. rewrite Hs, Ha. cbn.
  apply (command_topic_is_not_a_state_topic
           (Builtins.lower (Text.remove_char ":" mac)) key).
Qed.

(** X15.  [_on_message] raises, and then [UnicodeDecodeError], exactly when
    the payload or the topic of the message is not UTF-8, whatever the
    topic, also a topic of another device: both are decoded before the
    prefix is looked at.  It then queues nothing and changes nothing.  In
    every other case it returns. *)
Theorem on_message_raises_iff_undecodable (msg : MQTTMessage) (w : World) :
  (outcome (_on_message msg) w = Raise UnicodeDecodeError
   <-> Utf8.code_points msg.(payload) = None
       \/ topic_text msg = Raise UnicodeDecodeError)
  /\ (forall b : string,
        msg.(topic) = wire b ->
        (topic_text msg = Raise UnicodeDecodeError <-> Utf8.code_points b = None))
  /\ (outcome (_on_message msg) w <> Raise UnicodeDecodeError ->
      outcome (_on_message msg) w = Ok tt)
  /\ (outcome (_on_message msg) w = Raise UnicodeDecodeError ->
      exec (_on_message msg) w = w).
Proof.
  assert (Good : Utf8.code_points msg.(payload) <> None ->
                 topic_text msg = Ok (bytes_of msg.(topic)) ->
                 outcome (_on_message msg) w = Ok tt).
  { intros Hp Ht. unfold outcome, _on_message, bind, lift, Builtins.decode.
    destruct (Utf8.code_points (payload msg)); [|contradiction].
    rewrite Ht. unfold getself, gets. cbn.
    now destruct (Text.startswith _ _). }
  assert (Bad : Utf8.code_points msg.(payload) = None
                \/ topic_text msg = Raise UnicodeDecodeError ->
                _on_message msg w = (Raise UnicodeDecodeError, w)).
  { intros [Hp|Ht]; [now apply on_message_undecodable|].
    destruct (Utf8.code_points msg.(payload)) eqn:Hp;
      [apply on_message_unreadable; congruence | now apply on_message_undecodable]. }
  assert (Cases : (Utf8.code_points msg.(payload) = None
                   \/ topic_text msg = Raise UnicodeDecodeError)
                  \/ (Utf8.code_points msg.(payload) <> None
                      /\ topic_text msg = Ok (bytes_of msg.(topic)))).
  { destruct (Utf8.code_points msg.(payload)) eqn:Hp; [|now left; left].
    destruct (topic_text_cases msg) as [E|E]; [right | left; now right].
    split; [discriminate | exact E]. }
  split; [split|split; [|split]].
  - intros E. destruct Cases as [C|[Hp Ht]]; [exact C|].
    rewrite (Good Hp Ht) in E. discriminate.
  - intros C. unfold outcome. now rewrite (Bad C).
  - intros b Hb. unfold topic_text, Builtins.decode. rewrite Hb.
    destruct (Utf8.code_points b); split; intros H; congruence.
  - intros H. destruct Cases as [C|[Hp Ht]]; [|now apply Good].
    exfalso. apply H. unfold outcome. now rewrite (Bad C).
  - intros E. destruct Cases as [C|[Hp Ht]].
    + unfold exec. now rewrite (Bad C).
    + rewrite (Good Hp Ht) in E. discriminate.
Qed.

(** ** Connecting *)

(** X16.  A new client that connects and is told the result [rc] has made
    these calls of the transport, in this order: [setup], the WebSocket
    path, [tls_set] or, only when [allow_insecure_tls] was given, a TLS
    context without hostname check and without certificate verification,
    [connect_async] to the API host and port, [loop_start], and then, only
    when [rc] is 0, one subscription to everything under its state prefix.
    It has published nothing and its attributes are as new. *)
Theorem connection_sequence (mac : string) (insecure : bool) (rc : Z) :
  let w := run [op_connect; op_on_connect rc] (__init__ mac insecure) in
  w.(_mqtt_client)
  = ([setup; ws_set_options "/mqtt";
      if insecure then tls_set_context false false true else tls_set;
      connect_async "app.ensy.no" 8083;
      loop_start]
     ++ (if rc =? 0
         then [mqtt_subscribe (w.(self).(_state_topic_prefix) ++ "#")]
         else []))%list
  /\ publishes w.(_mqtt_client) = []
  /\ w.(self) = (__init__ mac insecure).(self).
Proof.
  destruct insecure, (rc =? 0) eqn:E; cbn; unfold _on_connect; rewrite E;
    repeat split.
Qed.

(** ** The online latch *)

Lemma propagate_match_online_is_latched (key value : string) (w : World) :
  online_is_latched w ->
  online_is_latched (exec (_propagate_match key value) w).
Proof.
  unfold online_is_latched. intros H.
  destruct w as [[? ? ? latched ? ? ? [? online ? ? ? ? ? ? ? ?]] ? ? ? ? ?].
  cbn in *. unfold _propagate_match.
  destruct (value == "online"), latched, online; split_cases; cbn; auto.
Qed.

Lemma step_online_is_latched (o : operation) (w : World) :
  online_is_latched w -> online_is_latched (step o w).
Proof.
  intros H.
  destruct o;
    try (match goal with
         | |- context [step ?o w] =>
             assert (Ho : o <> op_loop_turn) by discriminate;
             destruct (step_outside_the_loop o w Ho) as (E1 & E2 & _);
             unfold online_is_latched; rewrite E1, E2; exact H
         end).
  cbn [step]. unfold run_once.
  destruct (loop w) as [|t rest]; [exact H|].
  unfold online_is_latched. rewrite self_handle.
  destruct t as [key value|]; cbn [run_task].
  - rewrite on_message_propagate_eq. cbn zeta.
    pose proof (propagate_match_online_is_latched key value
                  (with_self (put_device_is_discovered true
                                (self (with_loop rest w))) (with_loop rest w))) as P.
    unfold exec, online_is_latched in P.
    destruct (_propagate_match key value _) as [[[|]|e] w2]; cbn in *;
      apply P; destruct w as [[] ? ? ? ? ?]; exact H.
  - rewrite on_disconnect_propagate_eq. cbn.
    destruct w as [[? ? ? ? ? ? ? []] ? ? ? ? ?]. cbn. discriminate.
Qed.

(** X17.  In every world a new client can reach, [is_online] in the Device
    State implies that the online latch is set. *)
Theorem online_state_implies_online_latch
  (mac : string) (insecure : bool) (ops : list operation) :
  online_is_latched (run ops (__init__ mac insecure)).
Proof.
  assert (G : forall ops w, online_is_latched w -> online_is_latched (run ops w)).
  { clear ops. intros ops. induction ops as [|o ops IH]; intros w H; [exact H|].
    change (run (o :: ops) w) with (run ops (step o w)).
    now apply IH, step_online_is_latched. }
  apply G. unfold online_is_latched. cbn. discriminate.
Qed.

(** X18.  After a disconnect, the next report [status=online] sets the
    online latch and [is_online] again. *)
Theorem online_again_after_disconnect (w : World) :
  w.(loop) = [] ->
  let w' := deliver (state_message w "status" "online") (disconnect w) in
  w'.(self).(device_is_online) = true
  /\ w'.(self).(state).(is_online) = true.
Proof.
  intros Hl w'. subst w'.
  assert (Hd : (disconnect w).(loop) = []).
  { unfold disconnect. apply async_block_till_done_frame. }
  assert (Hprefix : (disconnect w).(self).(_state_topic_prefix)
                    = w.(self).(_state_topic_prefix)).
  { unfold disconnect.
    destruct (async_block_till_done_frame (exec _on_disconnect w))
      as ((_ & _ & _ & E & _) & _).
    rewrite E. reflexivity. }
  replace (state_message w "status" "online")
    with (state_message (disconnect w) "status" "online")
    by (unfold state_message; now rewrite Hprefix).
  destruct (status_online (disconnect w) Hd) as (A & _ & B). now split.
Qed.


(** ** The binary sensors *)

(** X19.  [EnsyBinarySensor._on_state_change] schedules an update only
    when the value of its attribute in the state differs from the one it
    holds, and then holds the new one, so that a second notification of the
    same state does nothing.  It raises, and then [AssertionError], exactly
    when the attribute is unknown in the state while the sensor holds a
    value; the connectivity sensor never raises. *)
Theorem sensor_updates_on_change_only (sensor : EnsyBinarySensor) (st : EnsyState) :
  let value := getattr st sensor.(_state_key) in
  let ended := fst (_on_state_change sensor st) in
  let sensor' := snd (_on_state_change sensor st) in
  (ended = Raise AssertionError
   <-> value = None /\ sensor.(_attr_is_on) <> None)
  /\ (ended = Ok tt ->
      sensor'.(_attr_is_on) = value
      /\ sensor'.(scheduled_updates)
         = (sensor.(scheduled_updates)
            + if option_bool_eqb value sensor.(_attr_is_on) then 0 else 1)%nat
      /\ _on_state_change sensor' st = (Ok tt, sensor'))
  /\ (sensor.(_state_key) = key_is_online -> ended = Ok tt).
Proof.
  destruct sensor as [k attr n], st as [h o ? ? ? ? ? ? ? ?].
  unfold _on_state_change.
  destruct k, attr as [[]|], h as [[]|], o; cbn;
    repeat split; intros; try discriminate; try reflexivity; try lia;
    repeat match goal with
           | H : _ /\ _ |- _ => destruct H
           end;
    try discriminate; try contradiction.
Qed.

(** ** The address of a client *)

Lemma lower_char_facts (a : ascii) :
  Ascii.eqb (Text.ascii_lower_char a) ":" = Ascii.eqb a ":"
  /\ is_upper (Text.ascii_lower_char a) = false
  /\ Text.is_ascii_char (Text.ascii_lower_char a) = Text.is_ascii_char a
  /\ Text.ascii_lower_char (Text.ascii_lower_char a) = Text.ascii_lower_char a.
Proof.
  destruct a as [[] [] [] [] [] [] [] []]; vm_compute; repeat split.
Qed.

Lemma is_ascii_remove_char (c : ascii) (s : string) :
  Text.is_ascii s = true -> Text.is_ascii (Text.remove_char c s) = true.
Proof.
  induction s as [|a s IH]; cbn; [reflexivity|].
  intros H. apply andb_true_iff in H as [Ha Hs].
  destruct (Ascii.eqb a c); cbn; [auto | now rewrite Ha, IH].
Qed.

Lemma is_ascii_lower (s : string) :
  Text.is_ascii (Text.ascii_lower s) = Text.is_ascii s.
Proof.
  induction s as [|a s IH]; cbn; [reflexivity|].
  destruct (lower_char_facts a) as (_ & _ & E & _). now rewrite E, IH.
Qed.

Lemma occurs_remove_char (c : ascii) (s : string) :
  occurs c (Text.remove_char c s) = false.
Proof.
  induction s as [|a s IH]; cbn; [reflexivity|].
  destruct (Ascii.eqb a c) eqn:E; cbn; [exact IH | now rewrite E, IH].
Qed.

Lemma occurs_colon_lower (s : string) :
  occurs ":" (Text.ascii_lower s) = occurs ":" s.
Proof.
  induction s as [|a s IH]; cbn; [reflexivity|].
  destruct (lower_char_facts a) as (E & _). now rewrite E, IH.
Qed.

Lemma any_upper_lower (s : string) : any_upper (Text.ascii_lower s) = false.
Proof.
  induction s as [|a s IH]; cbn; [reflexivity|].
  destruct (lower_char_facts a) as (_ & E & _). now rewrite E, IH.
Qed.

Lemma ascii_lower_twice (s : string) :
  Text.ascii_lower (Text.ascii_lower s) = Text.ascii_lower s.
Proof.
  induction s as [|a s IH]; cbn; [reflexivity|].
  destruct (lower_char_facts a) as (_ & _ & _ & E). now rewrite E, IH.
Qed.

Lemma remove_char_absent (c : ascii) (s : string) :
  occurs c s = false -> Text.remove_char c s = s.
Proof.
  induction s as [|a s IH]; cbn; [reflexivity|].
  intros H. apply orb_false_iff in H as [Ha Hs]. now rewrite Ha, IH.
Qed.

(** X20.  For an ASCII address, the address a client keeps has no colon
    and no upper-case letter, and making a client from the kept address
    gives the same client. *)
Theorem address_is_normalised (mac : string) (insecure : bool) :
  Text.is_ascii mac = true ->
  let c := (__init__ mac insecure).(self) in
  occurs ":" c.(mac_address) = false
  /\ any_upper c.(mac_address) = false
  /\ __init__ c.(mac_address) insecure = __init__ mac insecure.
Proof.
  intros H.
  assert (E : forall s, Text.is_ascii s = true ->
                        Builtins.lower s = Text.ascii_lower s)
    by (intros s Hs; unfold Builtins.lower; now rewrite Hs).
  cbn. rewrite !E by now apply is_ascii_remove_char.
  assert (Hc : occurs ":" (Text.ascii_lower (Text.remove_char ":" mac)) = false)
    by (rewrite occurs_colon_lower; apply occurs_remove_char).
  split; [exact Hc|]. split; [apply any_upper_lower|].
  unfold __init__. rewrite (remove_char_absent _ _ Hc).
  rewrite !E by (try rewrite is_ascii_lower; now apply is_ascii_remove_char).
  now rewrite ascii_lower_twice.
Qed.


(** ** Reports send nothing *)

(** X21.  Decoding a message makes no call of the transport and hands
    nothing to the executor, and it leaves the queue of the loop empty. *)
Theorem reports_send_nothing (msg : MQTTMessage) (w : World) :
  (deliver msg w).(_mqtt_client) = w.(_mqtt_client)
  /\ (deliver msg w).(executor) = w.(executor)
  /\ (deliver msg w).(loop) = [].
Proof.
  unfold deliver.
  destruct (async_block_till_done_frame (exec (_on_message msg) w))
    as (_ & _ & Hl & Hm & He).
  destruct (on_message_frame msg w) as (_ & Hm' & He' & _).
  repeat split; congruence.
Qed.

End Properties.

(** ** The statements at a client with the two binary sensors *)

#[local] Existing Instance sample_unicode_data.

Lemma status_other_than_online_keeps_online_latch_witness :
  online_client.(loop) = []
  /\ Utf8.code_points "offline" <> None
  /\ "offline" <> "online"
  /\ (deliver (state_message online_client "status" "offline") online_client)
       .(self).(state).(is_online) = false
  /\ (deliver (state_message online_client "status" "offline") online_client)
       .(self).(device_is_online) = true.
Proof.
  assert (Hl : online_client.(loop) = []) by reflexivity.
  assert (Hp : Utf8.code_points "offline" <> None) by discriminate.
  assert (Hv : "offline" <> "online") by discriminate.
  destruct (status_other_than_online_keeps_online_latch "offline" online_client
              Hl Hp Hv) as [Hstate Hlatch].
  refine (conj Hl (conj Hp (conj Hv (conj Hstate _)))).
  rewrite Hlatch. reflexivity.
Defined.

Lemma disconnect_notifies_with_three_arguments_witness :
  online_client.(loop) = []
  /\ (disconnect online_client).(self).(device_is_online) = false
  /\ (disconnect online_client).(self).(state).(is_online) = false.
Proof.
  assert (Hl : online_client.(loop) = []) by reflexivity.
  destruct (disconnect_notifies_with_three_arguments online_client Hl)
    as (Hlatch & Hstate & _).
  exact (conj Hl (conj Hlatch Hstate)).
Defined.

(** On that disconnect the heater sensor's observer is called with three
    arguments and raises [TypeError] in the loop; the connectivity sensor's
    observer is not called at all, and never learns of the transition. *)
Lemma disconnect_of_client_with_sensors :
  skipn (List.length online_client.(observed)) (disconnect online_client).(observed)
  = [("is_heating",
      offline_arguments (disconnect online_client).(self).(state))]
  /\ (disconnect online_client).(loop_exceptions) = [TypeError].
Proof. split; vm_compute; reflexivity. Qed.

Lemma end_to_end_scenario_witness :
  client_with_sensors.(self).(state) = EnsyState_default
  /\ client_with_sensors.(loop) = []
  /\ (decode_each scenario client_with_sensors).(self).(state).(fan_mode)
     = Some MEDIUM.
Proof.
  assert (Hs : client_with_sensors.(self).(state) = EnsyState_default) by reflexivity.
  assert (Hl : client_with_sensors.(loop) = []) by reflexivity.
  refine (conj Hs (conj Hl _)).
  rewrite (proj1 (end_to_end_scenario client_with_sensors Hs Hl)). reflexivity.
Defined.

Lemma preset_follows_latest_flag_witness :
  away_client.(loop) = []
  /\ Utf8.code_points "2" <> None
  /\ (deliver (state_message away_client "party" "2") away_client)
       .(self).(state).(preset_mode) = Some HOME.
Proof.
  assert (Hl : away_client.(loop) = []) by reflexivity.
  assert (Hp : Utf8.code_points "2" <> None) by discriminate.
  refine (conj Hl (conj Hp _)).
  exact (proj1 (preset_follows_latest_flag "2" away_client Hl Hp)).
Defined.

Lemma set_fan_mode_medium_clears_preset_witness :
  (away_client.(self).(state).(preset_mode) = Some AWAY
   \/ away_client.(self).(state).(preset_mode) = Some BOOST)
  /\ publishes (exec (set_fan_mode MEDIUM) away_client).(_mqtt_client)
     = [("units/000000000000/app/absent", "0");
        ("units/000000000000/app/party", "2");
        ("units/000000000000/app/fan", "2")].
Proof.
  assert (H : away_client.(self).(state).(preset_mode) = Some AWAY
              \/ away_client.(self).(state).(preset_mode) = Some BOOST)
    by (left; reflexivity).
  split; [assumption|].
  unfold exec. rewrite (set_fan_mode_medium_clears_preset away_client H).
  reflexivity.
Defined.

Lemma set_preset_mode_same_witness :
  away_client.(self).(state).(preset_mode) = Some AWAY
  /\ set_preset_mode AWAY away_client = (Ok tt, away_client).
Proof.
  split; [reflexivity | apply set_preset_mode_same; reflexivity].
Defined.

Lemma unknown_preset_is_not_home_witness :
  client_with_sensors.(self).(state).(preset_mode) = None
  /\ publishes (exec (set_fan_mode LOW) client_with_sensors).(_mqtt_client)
     = [("units/000000000000/app/absent", "0");
        ("units/000000000000/app/party", "2");
        ("units/000000000000/app/fan", "1")].
Proof.
  assert (H : client_with_sensors.(self).(state).(preset_mode) = None)
    by reflexivity.
  split; [assumption|].
  unfold exec. rewrite (proj1 (unknown_preset_is_not_home LOW client_with_sensors H)).
  reflexivity.
Defined.

Lemma unknown_topic_or_key_changes_nothing_witness :
  online_client.(loop) = []
  /\ ~ In "altsa" decoded_keys
  /\ (deliver (state_message online_client "altsa" "1") online_client)
       .(self).(state) = online_client.(self).(state)
  /\ (deliver (state_message online_client "altsa" "1") online_client)
       .(observed) = online_client.(observed).
Proof.
  assert (Hl : online_client.(loop) = []) by reflexivity.
  assert (Hk : ~ In "altsa" decoded_keys).
  { simpl. intros H. repeat (destruct H as [H|H]; [discriminate|]). exact H. }
  destruct (unknown_topic_or_key_changes_nothing
              (state_message online_client "altsa" "1") online_client Hl
              (or_intror (conj eq_refl Hk))) as (Hstate & Hobs & _).
  exact (conj Hl (conj Hk (conj Hstate Hobs))).
Defined.

Lemma discovered_latch_set_once_and_for_all_witness :
  client_with_sensors.(loop) = []
  /\ Utf8.code_points "1" <> None
  /\ topic_text {| topic := wire "units/000000000000/unit/rm"; payload := "1" |}
     = Ok "units/000000000000/unit/rm"
  /\ Text.startswith "units/000000000000/unit/rm"
                     client_with_sensors.(self).(_state_topic_prefix) = true
  /\ (run [op_on_disconnect; op_loop_turn; op_stop]
          (deliver {| topic := wire "units/000000000000/unit/rm"; payload := "1" |}
                   client_with_sensors)).(self).(device_is_discovered) = true.
Proof.
  assert (Hl : client_with_sensors.(loop) = []) by reflexivity.
  assert (Hp : Utf8.code_points "1" <> None) by discriminate.
  assert (Hr : topic_text
                 {| topic := wire "units/000000000000/unit/rm"; payload := "1" |}
               = Ok "units/000000000000/unit/rm") by reflexivity.
  assert (Ht : Text.startswith "units/000000000000/unit/rm"
                 client_with_sensors.(self).(_state_topic_prefix) = true)
    by reflexivity.
  refine (conj Hl (conj Hp (conj Hr (conj Ht _)))).
  exact (proj1 (proj2 (discovered_latch_set_once_and_for_all
                         {| topic := wire "units/000000000000/unit/rm";
                            payload := "1" |}
                         "units/000000000000/unit/rm"
                         [op_on_disconnect; op_loop_turn; op_stop]
                         client_with_sensors Hl Hp Hr Ht))).
Defined.

(** ** The further statements at the client with the two binary sensors *)

Lemma numeric_report_decoded_witness :
  In ("tout", put_temperature_outside) numeric_fields
  /\ online_client.(loop) = []
  /\ Utf8.code_points "-7" <> None
  /\ Builtins.int "-7" = Ok (-7)
  /\ (deliver (state_message online_client "tout" "-7") online_client)
       .(self).(state).(temperature_outside) = Some (-7).
Proof.
  assert (Hin : In ("tout", put_temperature_outside) numeric_fields)
    by (cbn; tauto).
  assert (Hl : online_client.(loop) = []) by reflexivity.
  assert (Hp : Utf8.code_points "-7" <> None) by discriminate.
  assert (Hi : Builtins.int "-7" = Ok (-7)) by reflexivity.
  refine (conj Hin (conj Hl (conj Hp (conj Hi _)))).
  rewrite (proj1 (numeric_report_decoded "tout" put_temperature_outside "-7" (-7)
                    online_client Hin Hl Hp Hi)).
  reflexivity.
Defined.

Lemma numeric_report_malformed_witness :
  In ("textr", put_temperature_extract) numeric_fields
  /\ client_with_sensors.(loop) = []
  /\ Utf8.code_points "18.5" <> None
  /\ Builtins.int "18.5" = Raise Builtins.invalid_literal
  /\ (deliver (state_message client_with_sensors "textr" "18.5") client_with_sensors)
       .(loop_exceptions) = [Builtins.invalid_literal].
Proof.
  assert (Hin : In ("textr", put_temperature_extract) numeric_fields)
    by (cbn; tauto).
  assert (Hl : client_with_sensors.(loop) = []) by reflexivity.
  assert (Hp : Utf8.code_points "18.5" <> None) by discriminate.
  assert (Hi : Builtins.int "18.5" = Raise Builtins.invalid_literal) by reflexivity.
  refine (conj Hin (conj Hl (conj Hp (conj Hi _)))).
  destruct (numeric_report_malformed "textr" put_temperature_extract "18.5"
              Builtins.invalid_literal client_with_sensors Hin Hl Hp Hi)
    as (_ & _ & _ & _ & E).
  rewrite E. reflexivity.
Defined.

Lemma fan_report_witness :
  online_client.(loop) = []
  /\ Utf8.code_points "0" <> None
  /\ ~ In "0" ["1"; "2"; "3"]
  /\ (deliver (state_message online_client "fan" "0") online_client).(self).(state)
     = online_client.(self).(state).
Proof.
  assert (Hl : online_client.(loop) = []) by reflexivity.
  assert (Hp : Utf8.code_points "0" <> None) by discriminate.
  assert (Hv : ~ In "0" ["1"; "2"; "3"]).
  { cbn. intros H. repeat (destruct H as [H|H]; [discriminate|]). exact H. }
  refine (conj Hl (conj Hp (conj Hv _))).
  exact (proj1 (proj2 (proj2 (proj2 (fan_report "0" online_client Hl Hp))) Hv)).
Defined.

Lemma heating_report_witness :
  online_client.(loop) = []
  /\ Utf8.code_points "on" <> None
  /\ (deliver (state_message online_client "he" "on") online_client)
       .(self).(state).(is_heating) = Some false.
Proof.
  assert (Hl : online_client.(loop) = []) by reflexivity.
  assert (Hp : Utf8.code_points "on" <> None) by discriminate.
  refine (conj Hl (conj Hp _)).
  rewrite (proj1 (heating_report "on" online_client Hl Hp)). reflexivity.
Defined.

Lemma set_fan_mode_round_trip_witness :
  away_client.(loop) = []
  /\ exists (value : string) (clearing : list (string * string)),
       publishes (exec (set_fan_mode HIGH) away_client).(_mqtt_client)
       = (publishes away_client.(_mqtt_client) ++ clearing
          ++ command_publishes_names away_client [("fan", value)])%list
       /\ (deliver (state_message away_client "fan" value) away_client)
            .(self).(state).(fan_mode) = Some HIGH.
Proof.
  assert (Hl : away_client.(loop) = []) by reflexivity.
  exact (conj Hl (set_fan_mode_round_trip HIGH away_client Hl)).
Defined.

Lemma set_target_temperature_round_trip_witness :
  online_client.(loop) = []
  /\ 15 <= 21 <= 26
  /\ exists value : string,
       publishes (exec (set_target_temperature 21) online_client).(_mqtt_client)
       = (publishes online_client.(_mqtt_client)
          ++ command_publishes_names online_client [("temperature", value)])%list
       /\ (deliver (state_message online_client "temperature" value) online_client)
            .(self).(state).(temperature_target) = Some 21.
Proof.
  assert (Hl : online_client.(loop) = []) by reflexivity.
  assert (Hr : 15 <= 21 <= 26) by lia.
  exact (conj Hl (conj Hr (set_target_temperature_round_trip 21 online_client Hl Hr))).
Defined.

Lemma set_preset_mode_round_trip_witness :
  away_client.(loop) = []
  /\ away_client.(self).(state).(preset_mode) <> Some HOME
  /\ (decode_each (preset_commands HOME) away_client).(self).(state).(preset_mode)
     = Some HOME.
Proof.
  assert (Hl : away_client.(loop) = []) by reflexivity.
  assert (Hm : away_client.(self).(state).(preset_mode) <> Some HOME)
    by discriminate.
  exact (conj Hl (conj Hm (proj2 (set_preset_mode_round_trip HOME away_client Hl Hm)))).
Defined.

Lemma only_the_loop_writes_the_state_witness :
  op_set_target_temperature 21 <> op_loop_turn
  /\ (step (op_set_target_temperature 21) online_client)
       .(self).(state).(temperature_target) = None.
Proof.
  assert (Ho : op_set_target_temperature 21 <> op_loop_turn) by discriminate.
  refine (conj Ho _).
  rewrite (proj1 (only_the_loop_writes_the_state _ online_client Ho)).
  reflexivity.
Defined.

Lemma encoder_publishes_under_the_command_prefix_witness :
  ((exists t, op_set_fan_mode LOW = op_set_target_temperature t)
   \/ (exists s, op_set_fan_mode LOW = op_set_fan_mode s)
   \/ (exists k v, op_set_fan_mode LOW = op_apply_state k v)
   \/ (exists m, op_set_fan_mode LOW = op_set_preset_mode m))
  /\ exists commands : list (string * string),
       step (op_set_fan_mode LOW) away_client
       = with__mqtt_client
           (away_client.(_mqtt_client) ++ command_publishes away_client commands)
           away_client.
Proof.
  assert (H : (exists t, op_set_fan_mode LOW = op_set_target_temperature t)
              \/ (exists s, op_set_fan_mode LOW = op_set_fan_mode s)
              \/ (exists k v, op_set_fan_mode LOW = op_apply_state k v)
              \/ (exists m, op_set_fan_mode LOW = op_set_preset_mode m))
    by (right; left; exists LOW; reflexivity).
  exact (conj H (encoder_publishes_under_the_command_prefix _ away_client H)).
Defined.

Lemma batching_does_not_matter_witness :
  client_with_sensors.(loop) = []
  /\ apply_state_messages scenario client_with_sensors
     = decode_each scenario client_with_sensors.
Proof.
  assert (Hl : client_with_sensors.(loop) = []) by reflexivity.
  exact (conj Hl (batching_does_not_matter scenario client_with_sensors Hl)).
Defined.

Lemma one_round_of_notification_witness :
  client_with_sensors.(loop) = []
  /\ let w' := deliver (state_message client_with_sensors "he" "1")
                       client_with_sensors in
     let args := snapshot_arguments w'.(self).(state) in
     let callbacks := client_with_sensors.(self).(on_state_updated) in
     w'.(observed) = client_with_sensors.(observed)
     \/ w'.(observed)
        = (client_with_sensors.(observed)
           ++ calls_of (reached callbacks args) args)%list.
Proof.
  assert (Hl : client_with_sensors.(loop) = []) by reflexivity.
  exact (conj Hl (proj1 (one_round_of_notification
                           (state_message client_with_sensors "he" "1")
                           client_with_sensors Hl))).
Defined.

Lemma online_again_after_disconnect_witness :
  online_client.(loop) = []
  /\ (deliver (state_message online_client "status" "online")
              (disconnect online_client)).(self).(device_is_online) = true.
Proof.
  assert (Hl : online_client.(loop) = []) by reflexivity.
  exact (conj Hl (proj1 (online_again_after_disconnect online_client Hl))).
Defined.

Lemma address_is_normalised_witness :
  Text.is_ascii "AA:bb:0C:1d:2E:3f" = true
  /\ (__init__ "AA:bb:0C:1d:2E:3f" false).(self).(mac_address) = "aabb0c1d2e3f"
  /\ __init__ "aabb0c1d2e3f" false = __init__ "AA:bb:0C:1d:2E:3f" false.
Proof.
  assert (H : Text.is_ascii "AA:bb:0C:1d:2E:3f" = true) by reflexivity.
  refine (conj H (conj eq_refl _)).
  exact (proj2 (proj2 (address_is_normalised "AA:bb:0C:1d:2E:3f" false H))).
Defined.

(** A message off the wire whose topic is not UTF-8, though its bytes begin
    with the prefix and its payload decodes: [_on_message] raises when it
    reads the topic, queues nothing, and the discovered latch stays clear. *)
Lemma unreadable_topic_is_dropped :
  let msg := {| topic := wire unreadable_topic; payload := "1" |} in
  Text.startswith msg.(topic) client_with_sensors.(self).(_state_topic_prefix) = true
  /\ Utf8.code_points msg.(payload) <> None
  /\ outcome (_on_message msg) client_with_sensors = Raise UnicodeDecodeError
  /\ (exec (_on_message msg) client_with_sensors).(loop) = []
  /\ (deliver msg client_with_sensors).(self).(device_is_discovered) = false.
Proof.
  cbn zeta. split; [reflexivity|]. split; [discriminate|].
  repeat split; vm_compute; reflexivity.
Qed.
